(** * groa_ds_api.utils.MovieUtility: the recommendation engine

    A shallow embedding of [src/api/groa_ds_api/utils.py] (class
    [MovieUtility]) and of the request models of
    [src/api/groa_ds_api/models.py].

    - Python exceptions are values of [exn]; a computation that may raise
      returns a [result].
    - numpy arithmetic is kept abstract in the class [Float]: every theorem
      holds for whatever floating-point format the vectors have.  The
      instance [float64] (IEEE binary64) is used to run the functions.
    - The embedding table [clf] is a finite map from movie ids to vectors;
      the two gensim methods the engine calls ([similar_by_vector] and
      [most_similar_to_given]) are parameters of the development. *)

From Stdlib Require Import ZArith QArith Floats Ascii.
From stdpp Require Import base strings list gmap.

Open Scope string_scope.
Open Scope list_scope.
Open Scope Z_scope.

(** ** Python exceptions and results *)

Inductive exn : Type :=
  | KeyError (key : string)
  | ValueError
  | TypeError
  | IndexError.

Inductive result (A : Type) : Type :=
  | Ok (a : A)
  | Raise (e : exn).
Arguments Ok {A} a.
Arguments Raise {A} e.

#[export] Instance result_ret : MRet result := λ A a, Ok a.

#[export] Instance result_bind : MBind result := λ A B k c,
  match c with
  | Ok a => k a
  | Raise e => Raise e
  end.

#[export] Instance result_fmap : FMap result := λ A B f c,
  match c with
  | Ok a => Ok (f a)
  | Raise e => Raise e
  end.

(** [try: c except KeyError: h] *)
Definition try_except_KeyError {A} (c : result A) (h : result A) : result A :=
  match c with
  | Raise (KeyError _) => h
  | _ => c
  end.

Definition raises {A} (c : result A) : Prop := ∃ e, c = Raise e.

(** The name of the class of an exception. *)
Definition exn_name (e : exn) : string :=
  match e with
  | KeyError _ => "KeyError"
  | ValueError => "ValueError"
  | TypeError => "TypeError"
  | IndexError => "IndexError"
  end.

(** ** Floating-point scalars *)

Class Float (F : Type) : Type := {
  fadd : F → F → F;
  fsub : F → F → F;
  fmul : F → F → F;
  fdiv : F → F → F;
  (** [r ** k] for a literal exponent [k] *)
  fpow : F → Z → F;
  (** [np.nan] *)
  fnan : F;
  (** the scalar denoted by a decimal literal, or by an [int] operand *)
  of_Q : Q → F;
  (** [a <= b] and [a < b] *)
  fleb : F → F → bool;
  fltb : F → F → bool;
  fisnan : F → bool;
  fsqrt : F → F
}.

Definition of_Z `{Float F} (z : Z) : F := of_Q (inject_Z z).

(** ** numpy values

    [np.mean] of an empty list is the scalar [nan]; of a non-empty list of
    equally long 1-d arrays it is a 1-d array.  Arithmetic between a scalar
    and an array broadcasts the scalar. *)

Inductive ndarray (F : Type) : Type :=
  | Scalar (x : F)
  | Array1 (v : list F).
Arguments Scalar {F} x.
Arguments Array1 {F} v.

Section Numpy.
Context `{Float F}.

Fixpoint zip_with_same (f : F → F → F) (u v : list F) : list F :=
  match u, v with
  | x :: u', y :: v' => f x y :: zip_with_same f u' v'
  | _, _ => []
  end.

(** [m_vec * w] *)
Definition vscale (v : list F) (w : F) : list F := map (λ x, fmul x w) v.

(** [np.mean(movie_vec, axis=0)] *)
Definition np_mean (movie_vec : list (list F)) : ndarray F :=
  match movie_vec with
  | [] => Scalar fnan
  | v :: vs =>
      let total := foldl (zip_with_same fadd) v vs in
      Array1 (map (λ x, fdiv x (of_Z (Z.of_nat (length movie_vec)))) total)
  end.

(** [a / h] for a Python number [h] *)
Definition np_div (a : ndarray F) (h : F) : ndarray F :=
  match a with
  | Scalar x => Scalar (fdiv x h)
  | Array1 v => Array1 (map (λ x, fdiv x h) v)
  end.

(** [a - b] *)
Definition np_sub (a b : ndarray F) : ndarray F :=
  match a, b with
  | Scalar x, Scalar y => Scalar (fsub x y)
  | Scalar x, Array1 v => Array1 (map (λ y, fsub x y) v)
  | Array1 u, Scalar y => Array1 (map (λ x, fsub x y) u)
  | Array1 u, Array1 v => Array1 (zip_with_same fsub u v)
  end.

End Numpy.

(** ** IEEE binary64 *)

Definition float_of_Z (z : Z) : float :=
  match z with
  | Z0 => 0%float
  | Zpos _ => PrimFloat.of_uint63 (Uint63.of_Z z)
  | Zneg p => PrimFloat.opp (PrimFloat.of_uint63 (Uint63.of_Z (Zpos p)))
  end.

Fixpoint float_pow_pos (x : float) (n : nat) : float :=
  match n with
  | O => 1%float
  | S n' => PrimFloat.mul x (float_pow_pos x n')
  end.

#[export] Instance float64 : Float float := {|
  fadd := PrimFloat.add;
  fsub := PrimFloat.sub;
  fmul := PrimFloat.mul;
  fdiv := PrimFloat.div;
  fpow := λ x k, float_pow_pos x (Z.to_nat k);
  fnan := PrimFloat.nan;
  of_Q := λ q, PrimFloat.div (float_of_Z (Qnum q)) (float_of_Z (Zpos (Qden q)));
  fleb := PrimFloat.leb;
  fltb := PrimFloat.ltb;
  fisnan := PrimFloat.is_nan;
  fsqrt := PrimFloat.sqrt
|}.


(** ** The engine: [MovieUtility.__predict] and its inner functions

    The inner functions of [__predict] close over [clf], [ratings_dict] and
    [harshness]; here these are arguments. *)

Section Engine.
Context `{Float F}.

(** [self.model]: the embedding table, and the gensim methods
    [clf.similar_by_vector(v, topn=k)] and
    [clf.wv.most_similar_to_given(id, id_list)]. *)
Variable clf : gmap string (list F).
Variable similar_by_vector : ndarray F → Z → result (list (string * F)).
Variable most_similar_to_given : string → list string → result string.

(** [clf[i]] *)
Definition clf_getitem (i : string) : result (list F) :=
  match clf !! i with
  | Some v => Ok v
  | None => Raise (KeyError i)
  end.

(** [ratings_dict[i]] *)
Definition dict_getitem (d : gmap string F) (i : string) : result F :=
  match d !! i with
  | Some r => Ok r
  | None => Raise (KeyError i)
  end.

(** [w = ((r**3)*-0.00143) + ((r**2)*0.0533) + (r*-0.4695) + 2.1867] *)
Definition rating_weight (r : F) : F :=
  fadd (fadd (fadd (fmul (fpow r 3) (of_Q (-143 # 100000)))
                   (fmul (fpow r 2) (of_Q (533 # 10000))))
             (fmul r (of_Q (-4695 # 10000))))
       (of_Q (21867 # 10000)).

(** One iteration of the first loop of [_aggregate_vectors]: [Some v] when
    [v] is appended to [movie_vec], [None] when the iteration ends in
    [continue]. *)
Definition aggregate_item (ratings_dict : gmap string F) (i : string)
    : result (option (list F)) :=
  try_except_KeyError
    (m_vec ← clf_getitem i;
     if bool_decide (ratings_dict ≠ ∅) then
       try_except_KeyError
         (r ← dict_getitem ratings_dict i;
          Ok (Some (vscale m_vec (rating_weight r))))
         (Ok None)
     else Ok (Some m_vec))
    (Ok None).

(** One iteration of the feedback loop. *)
Definition feedback_item (i : string) : result (option (list F)) :=
  try_except_KeyError
    (f_vec ← clf_getitem i;
     Ok (Some (vscale f_vec (of_Q (18 # 10)))))
    (Ok None).

(** [for i in items: body], appending to [movie_vec] *)
Fixpoint for_append (body : string → result (option (list F)))
    (items : list string) (movie_vec : list (list F))
    : result (list (list F)) :=
  match items with
  | [] => Ok movie_vec
  | i :: rest =>
      o ← body i;
      for_append body rest
        (match o with Some v => movie_vec ++ [v] | None => movie_vec end)
  end.

(** The list [movie_vec] at the [return] of [_aggregate_vectors]. *)
Definition aggregate_pool (ratings_dict : gmap string F)
    (movies feedback_list : list string) : result (list (list F)) :=
  movie_vec ← for_append (aggregate_item ratings_dict) movies [];
  if bool_decide (feedback_list ≠ [])
  then for_append feedback_item feedback_list movie_vec
  else Ok movie_vec.

Definition _aggregate_vectors (ratings_dict : gmap string F)
    (movies feedback_list : list string) : result (ndarray F) :=
  movie_vec ← aggregate_pool ratings_dict movies feedback_list;
  Ok (np_mean movie_vec).

Definition _remove_dislikes (ratings_dict : gmap string F)
    (bad_movies : list string) (good_movies_vec : ndarray F)
    (rejected_list : list string) (harshness : Z) : result (ndarray F) :=
  bad_vec ← _aggregate_vectors ratings_dict bad_movies rejected_list;
  let bad_vec := np_div bad_vec (of_Z harshness) in
  Ok (np_sub good_movies_vec bad_vec).

(** The vector [_similar_movies] searches with: [v] after
    [if bad_movies: v = _remove_dislikes(bad_movies, v, harshness=harshness)]. *)
Definition query_vector (ratings_dict : gmap string F) (harshness : Z)
    (v : ndarray F) (bad_movies : list string) : result (ndarray F) :=
  if bool_decide (bad_movies ≠ [])
  then _remove_dislikes ratings_dict bad_movies v [] harshness
  else Ok v.

Definition _similar_movies (ratings_dict : gmap string F) (harshness : Z)
    (v : ndarray F) (n : Z) (bad_movies : list string)
    : result (list (string * F)) :=
  v ← query_vector ratings_dict harshness v bad_movies;
  recs ← similar_by_vector v (n + 1);
  Ok (drop 1 recs).

(** Returns the kept recommendations and the new value of the nonlocal
    [dupes]. *)
Definition _remove_dupes (recs : list (string * F))
    (input bad_movies hist_list feedback_list : list string)
    : list (string * F) * list (string * F) :=
  let all_rated := input ++ bad_movies ++ hist_list ++ feedback_list in
  let dupes := filter (λ x, x.1 ∈ input) recs in
  (filter (λ x, x.1 ∉ all_rated) recs, dupes).

Definition __predict (input bad_movies hist_list val_list : list string)
    (ratings_dict : gmap string F) (checked_list rejected_list : list string)
    (n harshness : Z) : result (list (string * F)) :=
  aggregated ← _aggregate_vectors ratings_dict input checked_list;
  recs ← _similar_movies ratings_dict harshness aggregated n bad_movies;
  Ok (_remove_dupes recs input bad_movies hist_list
        (checked_list ++ rejected_list)).1.

(** [MovieUtility.get_most_similar_title]; [clf.wv.vocab] is the set of keys
    of [clf]. *)
Definition get_most_similar_title (id : string) (id_list : list string)
    : result string :=
  if bool_decide (clf !! id = None) then Ok ""
  else
    let id_list := filter (λ id, is_Some (clf !! id)) id_list in
    most_similar_to_given id id_list.

End Engine.

(** ** Request models ([models.py]) *)

Record RecInput : Type := {
  user_id : Z;
  num_recs : Z;
  good_threshold : Z;
  bad_threshold : Z;
  harshness : Z
}.

Record SimInput : Type := {
  sim_movie_id : string;
  num_movies : Z
}.

Record MovieRec (F : Type) : Type := {
  movie_id : string;
  score : F;
  title : string;
  year : Z;
  genres : list string;
  poster_url : string
}.
Arguments movie_id {F} _.
Arguments score {F} _.
Arguments title {F} _.
Arguments year {F} _.
Arguments genres {F} _.
Arguments poster_url {F} _.

(** What a public method returns: a plain string, or [{"data": [...]}]. *)
Inductive response (F : Type) : Type :=
  | Message (s : string)
  | Data (recs : list (MovieRec F)).
Arguments Message {F} s.
Arguments Data {F} recs.

(** ** Data frames *)

(** A row of [user_ratings]: columns [date], [movie_id], [rating]. *)
Record rating_row (F : Type) : Type := {
  r_date : string;
  r_movie_id : string;
  r_rating : F
}.
Arguments r_date {F} _.
Arguments r_movie_id {F} _.
Arguments r_rating {F} _.

(** A row of [user_watchlist], [user_watched] or [user_willnotwatchlist]:
    columns [date], [movie_id]. *)
Record list_row : Type := {
  l_date : string;
  l_movie_id : string
}.

(** A row of [self.id_book]: columns [movie_id], [title], [year], [genres],
    [poster_url] of the table [movies] (no column is NULL). *)
Record movie_row : Type := {
  m_movie_id : string;
  m_title : string;
  m_year : Z;
  m_genres : string;
  m_poster_url : string
}.

(** The tuple [__prep_data] returns. *)
Record prepared (F : Type) : Type := {
  good_list : list string;
  bad_list : list string;
  hist_list : list string;
  val_list : list string;
  ratings_dict : gmap string F
}.
Arguments good_list {F} _.
Arguments bad_list {F} _.
Arguments hist_list {F} _.
Arguments val_list {F} _.
Arguments ratings_dict {F} _.

(** [s.split(sep)] for a one-character separator *)
Fixpoint split_on (sep : Ascii.ascii) (s : string) : list string :=
  match s with
  | EmptyString => [EmptyString]
  | String c rest =>
      if decide (c = sep) then EmptyString :: split_on sep rest
      else match split_on sep rest with
           | [] => [String c EmptyString]
           | w :: ws => String c w :: ws
           end
  end.

Section PrepData.
Context `{Float F}.

(** The rows with [rating >= good_threshold], [rating <= bad_threshold], and
    [(rating > bad_threshold) & (rating < good_threshold)]. *)
Definition good_df (ratings_df : list (rating_row F)) (good_threshold : Z)
    : list (rating_row F) :=
  filter (λ r, fleb (of_Z good_threshold) (r_rating r) = true) ratings_df.

Definition bad_df (ratings_df : list (rating_row F)) (bad_threshold : Z)
    : list (rating_row F) :=
  filter (λ r, fleb (r_rating r) (of_Z bad_threshold) = true) ratings_df.

Definition neutral_df (ratings_df : list (rating_row F))
    (good_threshold bad_threshold : Z) : list (rating_row F) :=
  filter (λ r, fltb (of_Z bad_threshold) (r_rating r)
               && fltb (r_rating r) (of_Z good_threshold) = true) ratings_df.

(** [pd.Series(ratings_df['rating'].values, index=ratings_df['movie_id']).to_dict()]:
    a later row overwrites an earlier one with the same movie id. *)
Definition to_ratings_dict (ratings_df : list (rating_row F)) : gmap string F :=
  foldl (λ d r, <[r_movie_id r := r_rating r]> d) ∅ ratings_df.

Definition __prep_data (ratings_df : list (rating_row F))
    (watched_df watchlist_df : option (list list_row))
    (good_threshold bad_threshold : Z) : prepared F :=
  let good_list := r_movie_id <$> good_df ratings_df good_threshold in
  let bad_list := r_movie_id <$> bad_df ratings_df bad_threshold in
  let neutral_list :=
    r_movie_id <$> neutral_df ratings_df good_threshold bad_threshold in
  let ratings_dict := to_ratings_dict ratings_df in
  let hist_list :=
    match watched_df with
    | Some _ =>
        r_movie_id <$>
          filter (λ r, r_movie_id r ∉ good_list ++ bad_list) ratings_df
    | None => neutral_list
    end in
  let val_list :=
    match watchlist_df with
    | Some w => l_movie_id <$> w
    | None => []
    end in
  {| good_list := good_list; bad_list := bad_list; hist_list := hist_list;
     val_list := val_list; ratings_dict := ratings_dict |}.

End PrepData.

(** ** Public methods *)

(** A row of [pd.merge(recs, self.id_book, how='left', on='movie_id')]: the
    recommendation with the matching row of [id_book], or with no row (every
    [id_book] column NaN).  [fillna("None")] turns a NaN score into the
    string ["None"]. *)
Record rec_row (F : Type) : Type := {
  rec_movie_id : string;
  rec_score : F + string;
  rec_info : option movie_row
}.
Arguments rec_movie_id {F} _.
Arguments rec_score {F} _.
Arguments rec_info {F} _.

(** What [get_recommendations] does to its collaborators, in order:
    [__get_cursor] reconnects (the attribute it first reads,
    [self.conneciton], does not exist), queries are executed, the cursor is
    closed, [__predict] is called, a background task is queued. *)
Inductive event (F : Type) : Type :=
  | Connect
  | Execute (table : string) (user : Z)
  | CloseCursor
  | Predict
  | AddTask (rec_json : list (MovieRec F)) (user n good bad harsh : Z).
Arguments Connect {F}.
Arguments Execute {F} table user.
Arguments CloseCursor {F}.
Arguments Predict {F}.
Arguments AddTask {F} rec_json user n good bad harsh.

(** The tables the engine reads, by user id. *)
Record database (F : Type) : Type := {
  user_ratings : Z → list (rating_row F);
  user_watchlist : Z → list list_row;
  user_watched : Z → list list_row;
  user_willnotwatchlist : Z → list list_row
}.
Arguments user_ratings {F} _ _.
Arguments user_watchlist {F} _ _.
Arguments user_watched {F} _ _.
Arguments user_willnotwatchlist {F} _ _.

Section Public.
Context `{Float F}.

Variable clf : gmap string (list F).
Variable similar_by_vector : ndarray F → Z → result (list (string * F)).

(** [self.id_book] *)
Variable id_book : list movie_row.

Definition __get_info (recs : list (string * F)) : list (rec_row F) :=
  flat_map
    (λ x,
       match filter (λ m, m_movie_id m = x.1) id_book with
       | [] => [ {| rec_movie_id := x.1; rec_score := inl x.2;
                    rec_info := None |} ]
       | ms => (λ m, {| rec_movie_id := x.1; rec_score := inl x.2;
                        rec_info := Some m |}) <$> ms
       end)
    recs.

(** [rec_data.fillna("None")] *)
Definition fillna (rec_df : list (rec_row F)) : list (rec_row F) :=
  (λ r,
     match rec_score r with
     | inl x =>
         if fisnan x
         then {| rec_movie_id := rec_movie_id r; rec_score := inr "None";
                 rec_info := rec_info r |}
         else r
     | inr _ => r
     end) <$> rec_df.

(** One iteration of the loop of [__get_JSON]; [int(rec['year'])] raises
    [ValueError] on NaN and on ["None"]. *)
Definition json_of_row (r : rec_row F) : result (MovieRec F) :=
  let score := match rec_score r with inl x => x | inr _ => of_Q 0 end in
  match rec_info r with
  | None => Raise ValueError
  | Some m =>
      Ok {| movie_id := rec_movie_id r; score := score; title := m_title m;
            year := m_year m; genres := split_on ","%char (m_genres m);
            poster_url := m_poster_url m |}
  end.

Fixpoint __get_JSON (rec_df : list (rec_row F)) : result (list (MovieRec F)) :=
  match rec_df with
  | [] => Ok []
  | r :: rest =>
      j ← json_of_row r;
      js ← __get_JSON rest;
      Ok (j :: js)
  end.

(** [movies_df] of [get_similar_movies] *)
Definition similar_movies_df (payload : SimInput) : result (list (string * F)) :=
  let movie_id := sim_movie_id payload in
  let n := num_movies payload in
  m_vec ← clf_getitem clf movie_id;
  recs ← similar_by_vector (Array1 m_vec) (n + 1);
  Ok (drop 1 recs).

Definition get_similar_movies (payload : SimInput) : result (response F) :=
  movies_df ← similar_movies_df payload;
  let result_df := __get_info movies_df in
  data ← __get_JSON result_df;
  Ok (Data data).

Definition get_recommendations (db : database F) (payload : RecInput)
    (trace : list (event F)) : result (response F) * list (event F) :=
  let user_id := user_id payload in
  let n := num_recs payload in
  let good_threshold := good_threshold payload in
  let bad_threshold := bad_threshold payload in
  let harshness := harshness payload in
  let trace := trace ++ [Connect] in
  let trace := trace ++ [Execute "user_ratings" user_id] in
  let ratings := user_ratings db user_id in
  if bool_decide (length ratings = 0%nat) then
    (Ok (Message "User does not have ratings"), trace ++ [CloseCursor])
  else
    let trace := trace ++ [Execute "user_watchlist" user_id] in
    let watchlist := user_watchlist db user_id in
    let trace := trace ++ [Execute "user_watched" user_id] in
    let watched := user_watched db user_id in
    let trace := trace ++ [Execute "user_willnotwatchlist" user_id] in
    let p := __prep_data ratings (Some watched) (Some watchlist)
               good_threshold bad_threshold in
    let trace := trace ++ [Predict] in
    match __predict clf similar_by_vector (good_list p) (bad_list p)
            (hist_list p) (val_list p) (ratings_dict p) [] [] n harshness with
    | Raise e => (Raise e, trace)
    | Ok w2v_preds =>
        let rec_data := fillna (__get_info w2v_preds) in
        match __get_JSON rec_data with
        | Raise e => (Raise e, trace)
        | Ok rec_json =>
            (Ok (Data rec_json),
             trace ++ [AddTask rec_json user_id n good_threshold
                         bad_threshold harshness])
        end
    end.

End Public.

(** ** Movie lists *)

Record Movie : Type := {
  mv_movie_id : string;
  mv_title : string;
  mv_year : Z;
  mv_genres : list string;
  mv_poster_url : string
}.

(** What [get_movie_list] returns: [{"data": [...], "recs": [...]}]. *)
Record list_json (F : Type) : Type := {
  lj_data : list Movie;
  lj_recs : list (MovieRec F)
}.
Arguments lj_data {F} _.
Arguments lj_recs {F} _.

Section MovieLists.
Context `{Float F}.

Variable clf : gmap string (list F).
Variable similar_by_vector : ndarray F → Z → result (list (string * F)).
Variable id_book : list movie_row.

(** The rows of the query of [get_movie_list], by list id: the movies of the
    list joined with the table [movies] (every movie of a list has its row
    there, no column is NULL). *)
Variable list_movies : Z → list movie_row.

(** The entry of ["data"] built from a row [movie]. *)
Definition movie_of_row (movie : movie_row) : Movie :=
  {| mv_movie_id := m_movie_id movie; mv_title := m_title movie;
     mv_year := m_year movie; mv_genres := split_on ","%char (m_genres movie);
     mv_poster_url := m_poster_url movie |}.

(** [self.__predict(movie_ids)] runs with the defaults [n=50],
    [harshness=1], no ratings and no other list. *)
Definition get_movie_list (list_id : Z) : result (list_json F) :=
  let list_sql := list_movies list_id in
  if bool_decide (0 < length list_sql)%nat then
    let movie_ids := m_movie_id <$> list_sql in
    let data := movie_of_row <$> list_sql in
    w2v_preds ← __predict clf similar_by_vector movie_ids [] [] [] ∅ [] []
                  50 1;
    let rec_data := fillna (__get_info id_book w2v_preds) in
    rec_json ← __get_JSON rec_data;
    Ok {| lj_data := data; lj_recs := rec_json |}
  else Ok {| lj_data := []; lj_recs := [] |}.

End MovieLists.

(** ** The cursor *)

(** A query parameter, or a column of a fetched row. *)
Inductive cell : Type :=
  | CInt (z : Z)
  | CStr (s : string)
  | CBool (b : bool).

(** What is done to the connection and its cursor, in order. *)
Inductive cursor_event : Type :=
  | CurConnect
  | CurExecute (query : string) (params : option (list cell))
  | CurCommit
  | CurClose.

(** What [__run_query] returns: [fetchone()[0]], [fetchall()] or [None]. *)
Inductive fetched : Type :=
  | FetchedOne (c : cell)
  | FetchedAll (rows : list (list cell))
  | FetchedNone.

Definition delete_list_query : string :=
  "DELETE FROM movie_lists WHERE list_id = %s RETURNING user_id, private;".

Definition remove_from_list_query : string :=
  "DELETE FROM list_movies WHERE list_id = %s AND movie_id = %s;".

Definition create_rec : string :=
  "
            INSERT INTO recommendations 
            (user_id, date, model_type) 
            VALUES (%s, %s, %s) RETURNING recommendation_id;
            ".

Definition create_movie_rec : string :=
  "
            INSERT INTO recommendations_movies
            (recommendation_id, movie_number, movie_id, num_recs, good_threshold, bad_threshold, harshness)
            VALUES (%s, %s, %s, %s, %s, %s, %s);
            ".

Section Cursor.
Context {F : Type}.

(** The rows the cursor holds once a query has been executed (the queries
    that are fetched from are SELECTs or have a RETURNING clause). *)
Variable rows_of : string → option (list cell) → list (list cell).

(** [fetchone()] of an empty result is [None], and [None[0]] raises
    [TypeError]; the commit and [close()] come after the fetch. *)
Definition __run_query (query : string) (params : option (list cell))
    (commit : bool) (fetch : string) (trace : list cursor_event)
    : result fetched * list cursor_event :=
  let trace := trace ++ [CurConnect] in
  let trace := trace ++ [CurExecute query params] in
  let rows := rows_of query params in
  let result :=
    if bool_decide (fetch = "one") then
      match rows with
      | [] => Raise TypeError
      | [] :: _ => Raise IndexError
      | (c :: _) :: _ => Ok (FetchedOne c)
      end
    else if bool_decide (fetch = "all") then Ok (FetchedAll rows)
    else Ok FetchedNone in
  match result with
  | Raise e => (Raise e, trace)
  | Ok r =>
      let trace := if commit then trace ++ [CurCommit] else trace in
      (Ok r, trace ++ [CurClose])
  end.

(** [self.__run_query(query, (list_id,), commit=True, fetch="all")[0]] *)
Definition delete_movie_list (list_id : Z) (trace : list cursor_event)
    : result (list cell) * list cursor_event :=
  match __run_query delete_list_query (Some [CInt list_id]) true "all" trace
  with
  | (Ok (FetchedAll (row :: _)), trace) => (Ok row, trace)
  | (Ok (FetchedAll []), trace) => (Raise IndexError, trace)
  | (Ok _, trace) => (Raise TypeError, trace)
  | (Raise e, trace) => (Raise e, trace)
  end.

Definition remove_from_movie_list (list_id : Z) (movie_id : string)
    (trace : list cursor_event) : result string * list cursor_event :=
  match __run_query remove_from_list_query
          (Some [CInt list_id; CStr movie_id]) true "none" trace
  with
  | (Ok _, trace) => (Ok "Success", trace)
  | (Raise e, trace) => (Raise e, trace)
  end.

(** The loop [for num, movie in enumerate(model_recs)] of
    [_commit_to_database], from the index [num] on. *)
Fixpoint insert_movie_recs (rec_id : cell) (num : Z)
    (model_recs : list (MovieRec F)) (num_recs good bad harsh : Z)
    (trace : list cursor_event) : list cursor_event :=
  match model_recs with
  | [] => trace
  | movie :: rest =>
      insert_movie_recs rec_id (num + 1) rest num_recs good bad harsh
        (trace ++ [CurExecute create_movie_rec
                     (Some [rec_id; CInt (num + 1); CStr (movie_id movie);
                            CInt num_recs; CInt good; CInt bad; CInt harsh])])
  end.

(** The background task of [get_recommendations]; it runs on the cursor the
    request left open.  [date] is [datetime.now()]. *)
Definition _commit_to_database (date : string)
    (model_recs : list (MovieRec F)) (user_id num_recs good bad harsh : Z)
    (trace : list cursor_event) : result unit * list cursor_event :=
  let params := Some [CInt user_id; CStr date; CStr "ratings"] in
  let trace := trace ++ [CurExecute create_rec params] in
  match rows_of create_rec params with
  | [] => (Raise TypeError, trace)
  | [] :: _ => (Raise IndexError, trace)
  | (rec_id :: _) :: _ =>
      let trace :=
        insert_movie_recs rec_id 0 model_recs num_recs good bad harsh trace in
      (Ok (), trace ++ [CurCommit; CurClose])
  end.

End Cursor.

(** ** Reference model of the gensim methods

    [KeyedVectors.similar_by_vector] and [most_similar_to_given] as gensim 3
    implements them, over the vectors stored in [clf] (already unit length
    after [init_sims(replace=True)]).  The engine's theorems do not depend on
    this model; it instantiates the parameters when the engine is run. *)

Section Gensim.
Context `{Float F}.

Variable clf : gmap string (list F).

(** [np.dot(u, v)] *)
Definition dot (u v : list F) : F :=
  foldl fadd (of_Q 0) (zip_with_same fmul u v).

(** [matutils.unitvec] *)
Definition unitvec (v : list F) : list F :=
  let veclen := fsqrt (dot v v) in
  if fltb (of_Q 0) veclen then vscale v (fdiv (of_Q 1) veclen) else v.

(** Insertion into a list ordered by decreasing score. *)
Fixpoint insert_desc (x : string * F) (l : list (string * F))
    : list (string * F) :=
  match l with
  | [] => [x]
  | y :: l' => if fltb y.2 x.2 then x :: l else y :: insert_desc x l'
  end.

Definition sort_desc (l : list (string * F)) : list (string * F) :=
  foldr insert_desc [] l.

(** [most_similar(positive=[vector], topn=topn)]: a positive entry that is
    neither a word nor an [ndarray] cannot be unpacked into
    [(word, weight)]. *)
Definition gensim_similar_by_vector (vector : ndarray F) (topn : Z)
    : result (list (string * F)) :=
  if bool_decide (topn < 1) then Ok []
  else
    match vector with
    | Scalar _ => Raise TypeError
    | Array1 v =>
        let mean := unitvec v in
        let dists := (λ kv, (kv.1, dot kv.2 mean)) <$> map_to_list clf in
        Ok (take (Z.to_nat topn) (sort_desc dists))
    end.

(** [similarity(w1, w2)] *)
Definition gensim_similarity (w1 w2 : string) : result F :=
  v1 ← clf_getitem clf w1;
  v2 ← clf_getitem clf w2;
  Ok (dot (unitvec v1) (unitvec v2)).

Fixpoint argmax_from (best_i : nat) (best : F) (i : nat) (l : list F) : nat :=
  match l with
  | [] => best_i
  | x :: l' =>
      if fltb best x then argmax_from i x (S i) l'
      else argmax_from best_i best (S i) l'
  end.

(** [np.argmax]: "attempt to get argmax of an empty sequence" *)
Definition np_argmax (l : list F) : result nat :=
  match l with
  | [] => Raise ValueError
  | x :: l' => Ok (argmax_from 0 x 1 l')
  end.

(** [entities_list[argmax([similarity(entity1, e) for e in entities_list])]] *)
Definition gensim_most_similar_to_given (entity1 : string)
    (entities_list : list string) : result string :=
  sims ← mapM (gensim_similarity entity1) entities_list;
  k ← np_argmax sims;
  match entities_list !! k with
  | Some e => Ok e
  | None => Raise IndexError
  end.

End Gensim.

(** ** A small embedding space

    Four movies in two dimensions, binary64 scalars. *)

Set Warnings "-inexact-float".

Definition space : gmap string (list float) :=
  <["A" := [1; 0]%float]> (<["B" := [0.9; 0.1]%float]>
  (<["C" := [-1; 0]%float]> (<["D" := [0; 1]%float]> ∅))).

Definition space_book : list movie_row :=
  [ {| m_movie_id := "A"; m_title := "Alpha"; m_year := 1999;
       m_genres := "Drama,Crime"; m_poster_url := "a.png" |};
    {| m_movie_id := "B"; m_title := "Beta"; m_year := 2004;
       m_genres := "Drama"; m_poster_url := "b.png" |};
    {| m_movie_id := "C"; m_title := "Gamma"; m_year := 2010;
       m_genres := "Comedy"; m_poster_url := "c.png" |};
    {| m_movie_id := "D"; m_title := "Delta"; m_year := 2015;
       m_genres := "Horror,Thriller"; m_poster_url := "d.png" |} ].

(** A user without ratings (1) and a user who rated [A] twice (2). *)
Definition space_db : database float := {|
  user_ratings := λ u,
    if bool_decide (u = 2)
    then [ {| r_date := "2020-01-01"; r_movie_id := "A"; r_rating := 5%float |};
           {| r_date := "2020-02-01"; r_movie_id := "A"; r_rating := 3%float |} ]
    else [];
  user_watchlist := λ _, [];
  user_watched := λ _, [];
  user_willnotwatchlist := λ _, []
|}.

(** A rating map without [A], and ratings in which no movie occurs twice. *)
Definition rated_once : list (rating_row float) :=
  [ {| r_date := "2020-01-01"; r_movie_id := "A"; r_rating := 5%float |};
    {| r_date := "2020-01-02"; r_movie_id := "B"; r_rating := 3%float |};
    {| r_date := "2020-01-03"; r_movie_id := "C"; r_rating := 1%float |} ].

(** A book that lacks [C] and [D], a merged row, a returned list, and a
    cursor that hands back one row holding the number 7. *)
Definition short_book : list movie_row := take 2 space_book.

(** A book that has the row of [B] twice. *)
Definition doubled_book : list movie_row :=
  take 2 space_book ++ drop 1 space_book.

Definition row_of_B : rec_row float :=
  {| rec_movie_id := "B"; rec_score := inr "None";
     rec_info := space_book !! 1%nat |}.

Definition json_of_B : MovieRec float :=
  {| movie_id := "B"; score := 0%float; title := "Beta"; year := 2004;
     genres := ["Drama"]; poster_url := "b.png" |}.

Definition two_recs : list (MovieRec float) :=
  [ {| movie_id := "B"; score := 0.9%float; title := "Beta"; year := 2004;
       genres := ["Drama"]; poster_url := "b.png" |};
    {| movie_id := "D"; score := 0%float; title := "Delta"; year := 2015;
       genres := ["Horror"; "Thriller"]; poster_url := "d.png" |} ].

Definition one_row_cursor (query : string) (params : option (list cell))
    : list (list cell) :=
  [[CInt 7]].

(** ** Descriptions used in the statements *)

Section Entries.
Context `{Float F}.

Variable clf : gmap string (list F).

(** The contribution of a liked (or disliked) movie. *)
Definition pool_entry (ratings_dict : gmap string F) (i : string)
    : option (list F) :=
  match clf !! i with
  | None => None
  | Some m_vec =>
      if bool_decide (ratings_dict ≠ ∅) then
        match ratings_dict !! i with
        | Some r => Some (vscale m_vec (rating_weight r))
        | None => None
        end
      else Some m_vec
  end.

(** The contribution of a movie of the feedback list. *)
Definition feedback_entry (i : string) : option (list F) :=
  match clf !! i with
  | None => None
  | Some f_vec => Some (vscale f_vec (of_Q (18 # 10)))
  end.

(** Whether the character [c] occurs in [s]. *)
Fixpoint has_char (c : Ascii.ascii) (s : string) : bool :=
  match s with
  | EmptyString => false
  | String c' s' => bool_decide (c' = c) || has_char c s'
  end.

(** What gensim promises of [similar_by_vector(v, topn=k)]: at most [k]
    entries, no word twice. *)
Definition search_contract
    (search : ndarray F → Z → result (list (string * F))) : Prop :=
  ∀ q k cands,
    search q k = Ok cands →
    (length cands ≤ Z.to_nat k)%nat ∧ NoDup cands.*1.

(** The rating of a row is ordered with respect to both thresholds (it is
    not NaN): [a < b] is the negation of [b <= a]. *)
Definition comparable (good_threshold bad_threshold : Z) (r : rating_row F)
    : Prop :=
  fltb (of_Z bad_threshold) (r_rating r)
    = negb (fleb (r_rating r) (of_Z bad_threshold))
  ∧ fltb (r_rating r) (of_Z good_threshold)
    = negb (fleb (of_Z good_threshold) (r_rating r)).

End Entries.

(** * Properties *)

(** ** Aggregation *)

Section AggregationProperties.
Context `{Float F}.

Variable clf : gmap string (list F).
Variable similar_by_vector : ndarray F → Z → result (list (string * F)).

Lemma aggregate_item_entry (rd : gmap string F) (i : string) :
  aggregate_item clf rd i = Ok (pool_entry clf rd i).
Proof.
  unfold aggregate_item, pool_entry, clf_getitem, dict_getitem.
  destruct (clf !! i) as [v|]; simpl; [|done].
  case_bool_decide; simpl; [|done].
  by destruct (rd !! i).
Qed.

Lemma feedback_item_entry (i : string) :
  feedback_item clf i = Ok (feedback_entry clf i).
Proof.
  unfold feedback_item, feedback_entry, clf_getitem.
  by destruct (clf !! i).
Qed.

Lemma for_append_omap (body : string → result (option (list F)))
    (f : string → option (list F)) (items : list string)
    (movie_vec : list (list F)) :
  (∀ i, body i = Ok (f i)) →
  for_append body items movie_vec = Ok (movie_vec ++ omap f items).
Proof.
  intros Hbody. revert movie_vec.
  induction items as [|i rest IH]; intros movie_vec; simpl.
  - by rewrite app_nil_r.
  - rewrite Hbody. simpl. rewrite IH.
    destruct (f i) as [v|]; [|done].
    by rewrite <- app_assoc.
Qed.

(** Aggregation never raises: the pool is the list of the contributions of
    the movies followed by those of the feedback list. *)
Lemma aggregate_pool_entries (rd : gmap string F) (movies fb : list string) :
  aggregate_pool clf rd movies fb
  = Ok (omap (pool_entry clf rd) movies ++ omap (feedback_entry clf) fb).
Proof.
  unfold aggregate_pool.
  rewrite (for_append_omap _ (pool_entry clf rd)) by apply aggregate_item_entry.
  simpl. case_bool_decide as Hfb.
  - apply for_append_omap, feedback_item_entry.
  - assert (fb = []) as -> by (by destruct fb; [|destruct Hfb]).
    by rewrite app_nil_r.
Qed.

Lemma aggregate_vectors_mean (rd : gmap string F) (movies fb : list string) :
  _aggregate_vectors clf rd movies fb
  = Ok (np_mean (omap (pool_entry clf rd) movies
                 ++ omap (feedback_entry clf) fb)).
Proof. unfold _aggregate_vectors. by rewrite aggregate_pool_entries. Qed.

Lemma omap_absent (f : string → option (list F)) (l : list string) :
  (∀ i, i ∈ l → f i = None) → omap f l = [].
Proof.
  induction l as [|i l IH]; intros Hl; simpl; [done|].
  rewrite (Hl i) by left. apply IH. intros j Hj. apply Hl. by right.
Qed.

(** C1 (as amended): under a non-empty rating map a movie that has a vector
    in the embedding table but no rating is skipped, like a movie absent
    from the table: the pool and the aggregate are those of the list without
    it. *)
Theorem aggregate_unrated_item_skipped (rd : gmap string F)
    (before after fb : list string) (i : string) (m_vec : list F) :
  rd ≠ ∅ →
  clf !! i = Some m_vec →
  rd !! i = None →
  aggregate_pool clf rd (before ++ i :: after) fb
    = aggregate_pool clf rd (before ++ after) fb
  ∧ _aggregate_vectors clf rd (before ++ i :: after) fb
    = _aggregate_vectors clf rd (before ++ after) fb.
Proof.
  intros Hrd Hclf Hi.
  assert (pool_entry clf rd i = None) as Hentry.
  { unfold pool_entry. rewrite Hclf, Hi. by case_bool_decide. }
  rewrite !aggregate_vectors_mean, !aggregate_pool_entries.
  rewrite !omap_app. simpl. by rewrite Hentry.
Qed.

(** C2 (as amended): when no movie of the liked list or of the feedback list
    has a vector, aggregation raises nothing: the pool is empty and the
    aggregate is [np.mean([])], the scalar NaN.  [__predict] then searches
    with this value (after the dislikes are subtracted), so the outcome of
    the request is that of [similar_by_vector]. *)
Theorem aggregate_empty_pool_nan (rd : gmap string F)
    (input checked_list bad_movies hist_list val_list rejected_list : list string)
    (n harshness : Z) :
  (∀ i, i ∈ input ++ checked_list → clf !! i = None) →
  aggregate_pool clf rd input checked_list = Ok []
  ∧ _aggregate_vectors clf rd input checked_list = Ok (Scalar fnan)
  ∧ __predict clf similar_by_vector input bad_movies hist_list val_list rd
      checked_list rejected_list n harshness
    = (v ← query_vector clf rd harshness (Scalar fnan) bad_movies;
       recs ← similar_by_vector v (n + 1);
       Ok (_remove_dupes (drop 1 recs) input bad_movies hist_list
             (checked_list ++ rejected_list)).1).
Proof.
  intros Habsent.
  assert (omap (pool_entry clf rd) input = []) as Hin.
  { apply omap_absent. intros i Hi. unfold pool_entry.
    rewrite Habsent; [done|]. apply elem_of_app. by left. }
  assert (omap (feedback_entry clf) checked_list = []) as Hfb.
  { apply omap_absent. intros i Hi. unfold feedback_entry.
    rewrite Habsent; [done|]. apply elem_of_app. by right. }
  split; [|split].
  - by rewrite aggregate_pool_entries, Hin, Hfb.
  - by rewrite aggregate_vectors_mean, Hin, Hfb.
  - unfold __predict, _similar_movies.
    rewrite aggregate_vectors_mean, Hin, Hfb. simpl.
    destruct (query_vector clf rd harshness (Scalar fnan) bad_movies)
      as [q|e]; simpl; [|done].
    by destruct (similar_by_vector q (n + 1)).
Qed.

End AggregationProperties.

(** ** Dislike suppression *)

Section SuppressionProperties.
Context `{Float F}.

Variable clf : gmap string (list F).
Variable similar_by_vector : ndarray F → Z → result (list (string * F)).

(** [_remove_dislikes] never raises, whatever [harshness] is. *)
Lemma remove_dislikes_value (rd : gmap string F) (bad_movies : list string)
    (v : ndarray F) (rejected_list : list string) (harshness : Z) :
  _remove_dislikes clf rd bad_movies v rejected_list harshness
  = Ok (np_sub v
          (np_div (np_mean (omap (pool_entry clf rd) bad_movies
                            ++ omap (feedback_entry clf) rejected_list))
             (of_Z harshness))).
Proof. unfold _remove_dislikes. by rewrite aggregate_vectors_mean. Qed.

(** C3 (as amended): with a non-empty disliked list and [harshness] exactly
    0 nothing is rejected.  The mean dislike vector is divided by 0
    component by component, the quotient is subtracted from the preference
    vector, and the search runs with the difference. *)
Theorem suppress_harshness_zero_not_rejected (rd : gmap string F)
    (v : ndarray F) (bad_movies : list string) (n : Z) :
  bad_movies ≠ [] →
  ∃ bad_vec,
    _aggregate_vectors clf rd bad_movies [] = Ok bad_vec
    ∧ query_vector clf rd 0 v bad_movies
      = Ok (np_sub v (np_div bad_vec (of_Z 0)))
    ∧ _similar_movies clf similar_by_vector rd 0 v n bad_movies
      = drop 1 <$>
          similar_by_vector (np_sub v (np_div bad_vec (of_Z 0))) (n + 1).
Proof.
  intros Hbad.
  exists (np_mean (omap (pool_entry clf rd) bad_movies
                   ++ omap (feedback_entry clf) [])).
  split; [apply aggregate_vectors_mean|].
  assert (query_vector clf rd 0 v bad_movies
          = Ok (np_sub v
                  (np_div (np_mean (omap (pool_entry clf rd) bad_movies
                                    ++ omap (feedback_entry clf) []))
                     (of_Z 0)))) as Hq.
  { unfold query_vector. rewrite bool_decide_eq_true_2 by done.
    apply remove_dislikes_value. }
  split; [done|].
  unfold _similar_movies. rewrite Hq. simpl.
  by destruct (similar_by_vector _ _).
Qed.

(** C8: with an empty disliked list the preference vector is left as it is,
    for every [harshness]: the search runs with [v] itself. *)
Theorem suppress_no_dislikes_unchanged (rd : gmap string F) (harshness : Z)
    (v : ndarray F) (n : Z) :
  query_vector clf rd harshness v [] = Ok v
  ∧ _similar_movies clf similar_by_vector rd harshness v n []
    = drop 1 <$> similar_by_vector v (n + 1).
Proof.
  split; [done|].
  unfold _similar_movies, query_vector. simpl.
  by destruct (similar_by_vector v (n + 1)).
Qed.

End SuppressionProperties.

(** ** Result filtering *)

Section FilterProperties.
Context {F : Type}.

(** C4: the kept results are the results whose id is in none of the liked,
    disliked, history and feedback lists, in the order of the ranking; the
    duplicates are the results whose id is in the liked list. *)
Theorem remove_dupes_kept_and_duplicates (recs : list (string * F))
    (input bad_movies hist_list feedback_list : list string) :
  let kept :=
    (_remove_dupes recs input bad_movies hist_list feedback_list).1 in
  let dupes :=
    (_remove_dupes recs input bad_movies hist_list feedback_list).2 in
  kept = filter (λ x, (x.1 ∉ input) ∧ (x.1 ∉ bad_movies)
                      ∧ (x.1 ∉ hist_list) ∧ (x.1 ∉ feedback_list)) recs
  ∧ (∀ x, x ∈ kept ↔
          x ∈ recs ∧ (x.1 ∉ input) ∧ (x.1 ∉ bad_movies)
          ∧ (x.1 ∉ hist_list) ∧ (x.1 ∉ feedback_list))
  ∧ kept `sublist_of` recs
  ∧ dupes = filter (λ x, x.1 ∈ input) recs
  ∧ (∀ x, x ∈ dupes ↔ x ∈ recs ∧ x.1 ∈ input)
  ∧ dupes `sublist_of` recs.
Proof.
  simpl.
  assert (∀ x : string * F,
            (x.1 ∉ input ++ bad_movies ++ hist_list ++ feedback_list)
            ↔ (x.1 ∉ input) ∧ (x.1 ∉ bad_movies)
              ∧ (x.1 ∉ hist_list) ∧ (x.1 ∉ feedback_list)) as Hsplit.
  { intros x. rewrite !elem_of_app. tauto. }
  split; [|split; [|split; [|split; [|split]]]].
  - apply list_filter_iff. intros x. apply Hsplit.
  - intros x. rewrite list_elem_of_filter, Hsplit. tauto.
  - apply sublist_filter.
  - done.
  - intros x. rewrite list_elem_of_filter. tauto.
  - apply sublist_filter.
Qed.

End FilterProperties.

(** ** Neighbour search *)

Section SearchProperties.
Context `{Float F}.

Variable clf : gmap string (list F).
Variable similar_by_vector : ndarray F → Z → result (list (string * F)).
Variable id_book : list movie_row.

Lemma drop_first_bounds (cands : list (string * F)) (n : Z) :
  0 ≤ n →
  (length cands ≤ Z.to_nat (n + 1))%nat →
  NoDup cands.*1 →
  Z.of_nat (length (drop 1 cands)) ≤ n ∧ NoDup (drop 1 cands).*1.
Proof.
  intros Hn Hlen Hnd. split.
  - rewrite length_drop. lia.
  - rewrite fmap_drop.
    eapply sublist_NoDup; [done|apply sublist_drop].
Qed.

(** C6 (as amended): for a movie id without a vector, [get_similar_movies]
    fails with the [KeyError] of the lookup [clf[movie_id]]: nothing catches
    it or turns it into another error or into an answer, and no search is
    made. *)
Theorem similar_movies_unknown_id (payload : SimInput) :
  clf !! sim_movie_id payload = None →
  get_similar_movies clf similar_by_vector id_book payload
  = Raise (KeyError (sim_movie_id payload)).
Proof.
  intros Hnone.
  unfold get_similar_movies, similar_movies_df, clf_getitem.
  by rewrite Hnone.
Qed.

End SearchProperties.

(** The reference search satisfies the contract. *)

Section GensimProperties.
Context `{Float F}.

Lemma insert_desc_perm (x : string * F) (l : list (string * F)) :
  insert_desc x l ≡ₚ x :: l.
Proof.
  induction l as [|y l IH]; simpl; [done|].
  destruct (fltb y.2 x.2); [done|].
  rewrite IH. apply Permutation_swap.
Qed.

Lemma sort_desc_perm (l : list (string * F)) : sort_desc l ≡ₚ l.
Proof.
  induction l as [|x l IH]; simpl; [done|].
  by rewrite insert_desc_perm, IH.
Qed.

Lemma gensim_search_contract (clf : gmap string (list F)) :
  search_contract (gensim_similar_by_vector clf).
Proof.
  intros q k cands Hs. unfold gensim_similar_by_vector in Hs.
  case_bool_decide.
  - injection Hs as <-. split; [simpl; lia|constructor].
  - destruct q as [x|v]; [done|]. injection Hs as <-. split.
    + rewrite length_take. lia.
    + rewrite fmap_take.
      eapply sublist_NoDup; [|apply sublist_take].
      rewrite sort_desc_perm, <- list_fmap_compose.
      apply (NoDup_fst_map_to_list clf).
Qed.

End GensimProperties.

(** ** Constrained nearest match *)

Section TitleProperties.
Context {F : Type}.

Variable clf : gmap string (list F).
Variable most_similar_to_given : string → list string → result string.

(** An id outside the vocabulary gives the empty title. *)
Lemma most_similar_title_unknown_id (id : string) (id_list : list string) :
  clf !! id = None →
  get_most_similar_title clf most_similar_to_given id id_list = Ok "".
Proof.
  intros Hid. unfold get_most_similar_title.
  by rewrite bool_decide_eq_true_2.
Qed.

(** Otherwise gensim is asked, with the candidates of the vocabulary in
    their order. *)
Lemma most_similar_title_candidates (id : string) (id_list : list string) :
  is_Some (clf !! id) →
  get_most_similar_title clf most_similar_to_given id id_list
  = most_similar_to_given id (filter (λ i, i ∈ dom clf) id_list).
Proof.
  intros [v Hid]. unfold get_most_similar_title.
  rewrite bool_decide_eq_false_2 by congruence.
  f_equal. apply list_filter_iff. intros i. by rewrite elem_of_dom.
Qed.

Lemma filter_vocabulary_none (id_list : list string) :
  Forall (λ i, clf !! i = None) id_list →
  filter (λ i, i ∈ dom clf) id_list = [].
Proof.
  induction 1 as [|i l Hi _ IH]; [done|].
  rewrite filter_cons_False; [done|].
  rewrite elem_of_dom, Hi. by intros [? ?].
Qed.

End TitleProperties.

Section TitleGensim.
Context `{Float F}.

Variable clf : gmap string (list F).

(** C7 (where the code departs from it): for an id of the vocabulary and
    candidates of which none is in the vocabulary, the lookup does not
    return the empty title: gensim is called with an empty candidate list
    and takes the [argmax] of an empty sequence, which raises [ValueError]. *)
Theorem most_similar_title_no_candidate_raises (id : string)
    (id_list : list string) :
  is_Some (clf !! id) →
  Forall (λ i, clf !! i = None) id_list →
  get_most_similar_title clf (gensim_most_similar_to_given clf) id id_list
  = Raise ValueError.
Proof.
  intros Hid Hnone.
  rewrite most_similar_title_candidates by done.
  by rewrite filter_vocabulary_none.
Qed.

End TitleGensim.

(** ** Preparing the lists *)

Section PrepDataProperties.
Context `{Float F}.

Lemma NoDup_fmap_eq {A B} (f : A → B) (l : list A) (x y : A) :
  NoDup (f <$> l) → x ∈ l → y ∈ l → f x = f y → x = y.
Proof.
  induction l as [|a l IH]; intros Hnd Hx Hy Hxy; [by inv Hx|].
  rewrite fmap_cons in Hnd. apply NoDup_cons in Hnd as [Ha Hnd].
  inv Hx; inv Hy; try done.
  - destruct Ha. rewrite Hxy. by apply list_elem_of_fmap_2.
  - destruct Ha. rewrite <- Hxy. by apply list_elem_of_fmap_2.
  - by apply IH.
Qed.

Lemma filter_iff_on {A} (P Q : A → Prop) `{!∀ x, Decision (P x)}
    `{!∀ x, Decision (Q x)} (l : list A) :
  Forall (λ x, P x ↔ Q x) l → filter P l = filter Q l.
Proof.
  induction 1 as [|x l Hx _ IH]; [done|].
  destruct (decide (P x)).
  - rewrite !filter_cons_True by tauto. by rewrite IH.
  - rewrite !filter_cons_False by tauto. done.
Qed.

Lemma movie_id_in_filter (P : rating_row F → Prop)
    `{!∀ r, Decision (P r)} (rows : list (rating_row F)) (r : rating_row F) :
  NoDup (r_movie_id <$> rows) → r ∈ rows →
  r_movie_id r ∈ r_movie_id <$> filter P rows ↔ P r.
Proof.
  intros Hnd Hr. split.
  - intros (r' & Hid & Hr')%list_elem_of_fmap.
    apply list_elem_of_filter in Hr' as [HP Hr'].
    by rewrite (NoDup_fmap_eq r_movie_id rows r r').
  - intros HP. apply list_elem_of_fmap_2. by apply list_elem_of_filter.
Qed.

(** Whether a watched frame is supplied is all that [__prep_data] uses of
    it. *)
Lemma prep_data_watched_contents (rows : list (rating_row F))
    (w w' : list list_row) (wl wl' : option (list list_row)) (g b : Z) :
  hist_list (__prep_data rows (Some w) wl g b)
  = hist_list (__prep_data rows (Some w') wl' g b).
Proof. done. Qed.

(** C9 (as amended): when every movie id occurs in one row of the ratings
    and every rating is ordered with respect to the thresholds, the history
    list is the list of the movies rated strictly between [bad_threshold]
    and [good_threshold], and it is the same for any two values of the
    watched frame, absent or not. *)
Theorem prep_data_hist_list (rows : list (rating_row F))
    (watched watched' watchlist watchlist' : option (list list_row))
    (good_threshold bad_threshold : Z) :
  NoDup (r_movie_id <$> rows) →
  Forall (comparable good_threshold bad_threshold) rows →
  hist_list (__prep_data rows watched watchlist good_threshold bad_threshold)
    = r_movie_id <$> neutral_df rows good_threshold bad_threshold
  ∧ hist_list (__prep_data rows watched watchlist good_threshold bad_threshold)
    = hist_list
        (__prep_data rows watched' watchlist' good_threshold bad_threshold).
Proof.
  intros Hnd Hcmp.
  assert (∀ w wl,
            hist_list (__prep_data rows w wl good_threshold bad_threshold)
            = r_movie_id <$> neutral_df rows good_threshold bad_threshold)
    as Hhist.
  { intros [w|] wl; [|done]. simpl. f_equal. unfold neutral_df.
    apply filter_iff_on. apply Forall_forall. intros r Hr.
    rewrite Forall_forall in Hcmp. destruct (Hcmp r Hr) as [Hb Hg].
    rewrite elem_of_app. unfold good_df, bad_df.
    rewrite !movie_id_in_filter by done.
    rewrite Hb, Hg.
    destruct (fleb (of_Z good_threshold) (r_rating r)),
             (fleb (r_rating r) (of_Z bad_threshold)); simpl;
      intuition congruence. }
  split; [apply Hhist|]. by rewrite !Hhist.
Qed.

End PrepDataProperties.

(** ** Recommendations for a user without ratings *)

Section RecommendationProperties.
Context `{Float F}.

Variable clf : gmap string (list F).
Variable similar_by_vector : ndarray F → Z → result (list (string * F)).
Variable id_book : list movie_row.

(** C10: for a user with no row of ratings [get_recommendations] returns
    the string "User does not have ratings"; it has connected, run the
    ratings query and closed the cursor, and has not called [__predict]:
    nothing is aggregated, suppressed or searched. *)
Theorem recommendations_without_ratings (db : database F)
    (payload : RecInput) (trace : list (event F)) :
  user_ratings db (user_id payload) = [] →
  get_recommendations clf similar_by_vector id_book db payload trace
  = (Ok (Message "User does not have ratings"),
     trace ++ [Connect; Execute "user_ratings" (user_id payload);
               CloseCursor])
  ∧ Predict ∉ [Connect; Execute "user_ratings" (user_id payload);
               @CloseCursor F].
Proof.
  intros Hrows. split.
  - unfold get_recommendations. rewrite Hrows. simpl.
    by rewrite <- !app_assoc.
  - rewrite !not_elem_of_cons. repeat split; try done.
    apply not_elem_of_nil.
Qed.

End RecommendationProperties.

(** * The properties on the small embedding space *)

Definition rated_B : gmap string float := {["B" := 5%float]}.

(** C1, witness: [A] has a vector but no rating in [rated_B]. *)
Lemma aggregate_unrated_item_skipped_witness :
  aggregate_pool space rated_B ["A"; "B"] []
    = aggregate_pool space rated_B ["B"] []
  ∧ _aggregate_vectors space rated_B ["A"; "B"] []
    = _aggregate_vectors space rated_B ["B"] [].
Proof.
  apply (aggregate_unrated_item_skipped space rated_B [] ["B"] [] "A"
           [1; 0]%float).
  - apply insert_non_empty.
  - reflexivity.
  - reflexivity.
Defined.

(** C1, counterexample: [A] has the vector [[1; 0]] and no rating in the
    non-empty [rated_B], yet the pool built from the list [[A]] is empty:
    the vector of [A] is not in it. *)
Lemma aggregate_unrated_item_counterexample :
  space !! "A" = Some [1; 0]%float
  ∧ rated_B ≠ ∅
  ∧ rated_B !! "A" = None
  ∧ aggregate_pool space rated_B ["A"] [] = Ok []
  ∧ ¬ ∃ pool, aggregate_pool space rated_B ["A"] [] = Ok pool
              ∧ [1; 0]%float ∈ pool.
Proof.
  split; [reflexivity|]. split; [apply insert_non_empty|].
  split; [reflexivity|]. split; [reflexivity|].
  intros (pool & Hpool & Hin).
  assert (pool = []) as -> by (vm_compute in Hpool; congruence).
  by apply not_elem_of_nil in Hin.
Qed.

(** C2, witness: neither [Y] nor [Z] has a vector. *)
Lemma aggregate_empty_pool_nan_witness :
  aggregate_pool space ∅ ["Y"] ["Z"] = Ok []
  ∧ _aggregate_vectors space ∅ ["Y"] ["Z"] = Ok (Scalar fnan)
  ∧ __predict space (gensim_similar_by_vector space) ["Y"] ["C"] [] [] ∅
      ["Z"] [] 2 1
    = (v ← query_vector space ∅ 1 (Scalar fnan) ["C"];
       recs ← gensim_similar_by_vector space v (2 + 1);
       Ok (_remove_dupes (drop 1 recs) ["Y"] ["C"] [] (["Z"] ++ [])).1).
Proof.
  apply (aggregate_empty_pool_nan space (gensim_similar_by_vector space) ∅
           ["Y"] ["Z"] ["C"] [] [] [] 2 1).
  intros i Hi.
  apply elem_of_cons in Hi as [->|Hi]; [reflexivity|].
  apply elem_of_cons in Hi as [->|Hi]; [reflexivity|].
  by apply not_elem_of_nil in Hi.
Defined.

(** C2, counterexample: with an empty liked list and no feedback the pool is
    empty, and aggregation does not fail: it returns the scalar NaN.  With a
    disliked movie [__predict] does not fail either. *)
Lemma aggregate_empty_pool_counterexample :
  aggregate_pool space ∅ [] [] = Ok []
  ∧ _aggregate_vectors space ∅ [] [] = Ok (Scalar PrimFloat.nan)
  ∧ ¬ raises (_aggregate_vectors space ∅ [] [])
  ∧ ¬ raises (__predict space (gensim_similar_by_vector space) [] ["C"] []
                [] ∅ [] [] 2 1).
Proof.
  split; [reflexivity|]. split; [reflexivity|]. split.
  - intros [e He]. vm_compute in He. congruence.
  - intros [e He]. vm_compute in He. congruence.
Qed.

(** C3, witness: the preference [[1; 0]], the disliked movie [C]. *)
Lemma suppress_harshness_zero_not_rejected_witness :
  ∃ bad_vec,
    _aggregate_vectors space ∅ ["C"] [] = Ok bad_vec
    ∧ query_vector space ∅ 0 (Array1 [1; 0]%float) ["C"]
      = Ok (np_sub (Array1 [1; 0]%float) (np_div bad_vec (of_Z 0)))
    ∧ _similar_movies space (gensim_similar_by_vector space) ∅ 0
        (Array1 [1; 0]%float) 2 ["C"]
      = drop 1 <$>
          gensim_similar_by_vector space
            (np_sub (Array1 [1; 0]%float) (np_div bad_vec (of_Z 0))) (2 + 1).
Proof.
  apply (suppress_harshness_zero_not_rejected space
           (gensim_similar_by_vector space) ∅ (Array1 [1; 0]%float) ["C"] 2).
  discriminate.
Defined.

(** C3, counterexample: with [harshness = 0] the dislike vector [[-1; 0]]
    becomes [[-inf; nan]] and suppression returns [[inf; nan]]; nothing is
    raised, and the search goes on. *)
Lemma suppress_harshness_zero_counterexample :
  _remove_dislikes space ∅ ["C"] (Array1 [1; 0]%float) [] 0
    = Ok (Array1 [PrimFloat.infinity; PrimFloat.nan])
  ∧ ¬ raises (_remove_dislikes space ∅ ["C"] (Array1 [1; 0]%float) [] 0)
  ∧ ¬ raises (_similar_movies space (gensim_similar_by_vector space) ∅ 0
                (Array1 [1; 0]%float) 2 ["C"]).
Proof.
  split; [reflexivity|]. split.
  - intros [e He]. vm_compute in He. congruence.
  - intros [e He]. vm_compute in He. congruence.
Qed.

(** C6, witness: [Z] has no vector. *)
Lemma similar_movies_unknown_id_witness :
  get_similar_movies space (gensim_similar_by_vector space) space_book
    {| sim_movie_id := "Z"; num_movies := 2 |}
  = Raise (KeyError "Z").
Proof.
  apply (similar_movies_unknown_id space (gensim_similar_by_vector space)
           space_book {| sim_movie_id := "Z"; num_movies := 2 |}).
  reflexivity.
Defined.

(** C6, counterexample: for [Z], which has no vector, the exception raised
    is a [KeyError]; it is not an [UnknownItemError] (no exception of the
    source has that class), and no answer, "not found" or other, is
    returned. *)
Lemma similar_movies_unknown_id_counterexample :
  space !! "Z" = None
  ∧ get_similar_movies space (gensim_similar_by_vector space) space_book
      {| sim_movie_id := "Z"; num_movies := 2 |}
    = Raise (KeyError "Z")
  ∧ exn_name (KeyError "Z") = "KeyError"
  ∧ (¬ ∃ e, get_similar_movies space (gensim_similar_by_vector space)
              space_book {| sim_movie_id := "Z"; num_movies := 2 |}
            = Raise e
            ∧ exn_name e = "UnknownItemError")
  ∧ ¬ ∃ resp, get_similar_movies space (gensim_similar_by_vector space)
                space_book {| sim_movie_id := "Z"; num_movies := 2 |}
              = Ok resp.
Proof.
  split; [reflexivity|]. split; [reflexivity|]. split; [reflexivity|]. split.
  - intros (e & He & Hname). vm_compute in He. injection He as <-.
    discriminate Hname.
  - intros (resp & Hresp). vm_compute in Hresp. discriminate Hresp.
Qed.

(** C7, witness: [A] is in the vocabulary, the only candidate [Z] is not. *)
Lemma most_similar_title_no_candidate_raises_witness :
  get_most_similar_title space (gensim_most_similar_to_given space) "A" ["Z"]
  = Raise ValueError.
Proof.
  apply (most_similar_title_no_candidate_raises space "A" ["Z"]).
  - by eexists.
  - constructor; [reflexivity|constructor].
Defined.

(** C9, witness: three movies rated once each, thresholds 4 and 2. *)
Lemma prep_data_hist_list_witness :
  hist_list (__prep_data rated_once (Some []) None 4 2)
    = r_movie_id <$> neutral_df rated_once 4 2
  ∧ hist_list (__prep_data rated_once (Some []) None 4 2)
    = hist_list (__prep_data rated_once None None 4 2).
Proof.
  apply (prep_data_hist_list rated_once (Some []) None None None 4 2).
  - apply (bool_decide_unpack _). vm_compute. exact I.
  - repeat constructor.
Defined.

(** C9, counterexample: user 2 rated [A] twice, 5 and 3.  With thresholds 4
    and 2 the movie rated strictly between them is [A]; without a watched
    frame the history list is [[A]], with one it is empty. *)
Lemma prep_data_hist_list_counterexample :
  r_movie_id <$> neutral_df (user_ratings space_db 2) 4 2 = ["A"]
  ∧ hist_list (__prep_data (user_ratings space_db 2) None None 4 2) = ["A"]
  ∧ hist_list (__prep_data (user_ratings space_db 2) (Some []) None 4 2) = []
  ∧ hist_list (__prep_data (user_ratings space_db 2) (Some []) None 4 2)
    ≠ r_movie_id <$> neutral_df (user_ratings space_db 2) 4 2.
Proof.
  split; [reflexivity|]. split; [reflexivity|]. split; [reflexivity|].
  vm_compute. discriminate.
Qed.

(** C10, witness: user 1 has no ratings. *)
Lemma recommendations_without_ratings_witness :
  get_recommendations space (gensim_similar_by_vector space) space_book
    space_db
    {| user_id := 1; num_recs := 2; good_threshold := 4;
       bad_threshold := 3; harshness := 1 |} []
  = (Ok (Message "User does not have ratings"),
     [] ++ [Connect; Execute "user_ratings" 1; CloseCursor])
  ∧ Predict ∉ [Connect; Execute "user_ratings" 1; @CloseCursor float].
Proof.
  apply (recommendations_without_ratings space
           (gensim_similar_by_vector space) space_book space_db
           {| user_id := 1; num_recs := 2; good_threshold := 4;
              bad_threshold := 3; harshness := 1 |} []).
  reflexivity.
Defined.

(** ** Runs of the engine on the small embedding space *)

(** A single liked movie aggregates to its own vector. *)
Example aggregate_single_item :
  _aggregate_vectors space ∅ ["B"] [] = Ok (Array1 [0.9; 0.1]%float).
Proof. reflexivity. Qed.

(** A rated movie is weighted, a feedback movie counts 1.8 times. *)
Example aggregate_rated_and_feedback :
  aggregate_pool space rated_B ["A"; "B"] ["D"]
  = Ok [vscale [0.9; 0.1]%float (rating_weight 5%float);
        vscale [0; 1]%float (of_Q (18 # 10))].
Proof. reflexivity. Qed.

(** Liked [A], nothing disliked, two recommendations: [B], then [D]. *)
Example predict_liked_A :
  __predict space (gensim_similar_by_vector space) ["A"] [] [] [] ∅ [] [] 2 1
  = Ok [("B", 0.9%float); ("D", 0%float)].
Proof. reflexivity. Qed.

(** Liked [A], disliked [C], harshness 1: the search runs with
    [[1; 0] - [-1; 0] = [2; 0]]. *)
Example query_vector_disliked_C :
  query_vector space ∅ 1 (Array1 [1; 0]%float) ["C"]
  = Ok (Array1 [2; 0]%float).
Proof. reflexivity. Qed.

(** [_remove_dislikes] is only called with a non-empty list: on an empty
    one it would subtract the mean of nothing. *)
Example remove_dislikes_empty_list :
  _remove_dislikes space ∅ [] (Array1 [1; 0]%float) [] 1
  = Ok (Array1 [PrimFloat.nan; PrimFloat.nan]).
Proof. reflexivity. Qed.

Example one_over_zero : fdiv (of_Z 1) (of_Z 0) = PrimFloat.infinity.
Proof. reflexivity. Qed.

(** Among the candidates of the vocabulary the nearest to [A] is [B]; an id
    outside the vocabulary has no match. *)
Example most_similar_title_of_A :
  get_most_similar_title space (gensim_most_similar_to_given space) "A"
    ["Z"; "C"; "B"; "D"]
  = Ok "B".
Proof. reflexivity. Qed.

Example most_similar_title_of_unknown :
  get_most_similar_title space (gensim_most_similar_to_given space) "Q"
    ["Z"; "C"; "B"; "D"]
  = Ok "".
Proof. reflexivity. Qed.

(** A user with ratings goes through [__predict]. *)
Example recommendations_with_ratings :
  Predict ∈ (get_recommendations space (gensim_similar_by_vector space)
               space_book space_db
               {| user_id := 2; num_recs := 2; good_threshold := 4;
                  bad_threshold := 2; harshness := 1 |} []).2.
Proof. vm_compute. repeat constructor. Qed.

(** * Further properties *)

(** ** More on aggregation *)

Section AggregationMore.
Context `{Float F}.

Variable clf : gmap string (list F).

Lemma omap_filter_defined {A B} (f : A → option B) (P : A → Prop)
    `{!∀ x, Decision (P x)} (l : list A) :
  (∀ x, ¬ P x → f x = None) → omap f (filter P l) = omap f l.
Proof.
  intros Hf. induction l as [|x l IH]; [done|].
  destruct (decide (P x)) as [HP|HP].
  - rewrite filter_cons_True by done. cbn. by rewrite IH.
  - rewrite filter_cons_False by done. rewrite IH. cbn.
    by rewrite (Hf x HP).
Qed.

Lemma omap_pointwise {A B} (f g : A → option B) (l : list A) :
  (∀ x, f x = g x) → omap f l = omap g l.
Proof.
  intros Hfg. induction l as [|x l IH]; [done|].
  cbn. by rewrite Hfg, IH.
Qed.

(** X1: the ids without a vector play no part in aggregation: the pool of
    two lists is the pool of their members that are in the vocabulary. *)
Theorem aggregate_pool_vocabulary_only (rd : gmap string F)
    (movies fb : list string) :
  aggregate_pool clf rd movies fb
  = aggregate_pool clf rd (filter (λ i, is_Some (clf !! i)) movies)
      (filter (λ i, is_Some (clf !! i)) fb).
Proof.
  rewrite !aggregate_pool_entries.
  f_equal. f_equal; symmetry; apply omap_filter_defined; intros i Hi.
  - unfold pool_entry. destruct (clf !! i); [|done]. by destruct Hi.
  - unfold feedback_entry. destruct (clf !! i); [|done]. by destruct Hi.
Qed.

(** X2: without ratings the pool is the list of the stored vectors of the
    movies, unweighted and in order, followed by those of the feedback
    movies scaled by 1.8; the aggregate is its mean. *)
Theorem aggregate_without_ratings (movies fb : list string) :
  aggregate_pool clf ∅ movies fb
  = Ok (omap (λ i, clf !! i) movies
        ++ omap (λ i, (λ v, vscale v (of_Q (18 # 10))) <$> clf !! i) fb)
  ∧ _aggregate_vectors clf ∅ movies fb
    = Ok (np_mean
            (omap (λ i, clf !! i) movies
             ++ omap (λ i, (λ v, vscale v (of_Q (18 # 10))) <$> clf !! i) fb)).
Proof.
  assert (omap (pool_entry clf ∅) movies = omap (λ i, clf !! i) movies) as Hm.
  { apply omap_pointwise. intros i. unfold pool_entry.
    destruct (clf !! i); [|done]. by rewrite bool_decide_eq_false_2 by auto. }
  assert (omap (feedback_entry clf) fb
          = omap (λ i, (λ v, vscale v (of_Q (18 # 10))) <$> clf !! i) fb)
    as Hf.
  { apply omap_pointwise. intros i. unfold feedback_entry.
    by destruct (clf !! i). }
  by rewrite aggregate_vectors_mean, aggregate_pool_entries, Hm, Hf.
Qed.

Lemma length_zip_with_same (f : F → F → F) (u v : list F) :
  length u = length v → length (zip_with_same f u v) = length u.
Proof.
  revert v. induction u as [|x u IH]; intros [|y v] Hl; simpl in *;
    try done.
  f_equal. apply IH. lia.
Qed.

Lemma length_total (d : nat) (vs : list (list F)) (v : list F) :
  length v = d → Forall (λ u, length u = d) vs →
  length (foldl (zip_with_same fadd) v vs) = d.
Proof.
  intros Hv Hvs. revert v Hv.
  induction Hvs as [|u vs Hu _ IH]; intros v Hv; simpl; [done|].
  apply IH. rewrite length_zip_with_same; congruence.
Qed.

Lemma length_np_mean (d : nat) (pool : list (list F)) :
  Forall (λ u, length u = d) pool →
  match np_mean pool with
  | Scalar _ => pool = []
  | Array1 v => length v = d
  end.
Proof.
  intros Hpool. destruct Hpool as [|u vs Hu Hvs]; simpl; [done|].
  rewrite length_map. by apply length_total.
Qed.

Lemma pool_dimension (d : nat) (rd : gmap string F)
    (movies fb : list string) :
  (∀ i v, clf !! i = Some v → length v = d) →
  Forall (λ u, length u = d)
    (omap (pool_entry clf rd) movies ++ omap (feedback_entry clf) fb).
Proof.
  intros Hd. apply Forall_app. split; apply Forall_forall; intros u Hu;
    apply list_elem_of_omap in Hu as (i & _ & Hi).
  - unfold pool_entry in Hi. destruct (clf !! i) as [v|] eqn:Hv; [|done].
    case_bool_decide.
    + destruct (rd !! i); [|done]. injection Hi as <-.
      unfold vscale. rewrite length_map. eauto.
    + injection Hi as <-. eauto.
  - unfold feedback_entry in Hi. destruct (clf !! i) as [v|] eqn:Hv; [|done].
    injection Hi as <-. unfold vscale. rewrite length_map. eauto.
Qed.

(** X3: when every stored vector has [d] components, an aggregate is the
    scalar NaN of an empty pool or an array of [d] components, and
    subtracting the dislikes from an array of [d] components gives an array
    of [d] components. *)
Theorem aggregate_keeps_dimension (d : nat) (rd : gmap string F)
    (movies fb bad_movies : list string) (harshness : Z) (v : list F) :
  (∀ i u, clf !! i = Some u → length u = d) →
  length v = d →
  (∃ a, _aggregate_vectors clf rd movies fb = Ok a
        ∧ match a with
          | Scalar _ => aggregate_pool clf rd movies fb = Ok []
          | Array1 u => length u = d
          end)
  ∧ (∃ u, query_vector clf rd harshness (Array1 v) bad_movies
          = Ok (Array1 u)
          ∧ length u = d).
Proof.
  intros Hd Hv. split.
  - eexists. split; [apply aggregate_vectors_mean|].
    pose proof (length_np_mean d _ (pool_dimension d rd movies fb Hd)) as Hm.
    destruct (np_mean _); [|done].
    by rewrite aggregate_pool_entries, Hm.
  - unfold query_vector. case_bool_decide; [|by exists v].
    rewrite remove_dislikes_value.
    pose proof (length_np_mean d _ (pool_dimension d rd bad_movies [] Hd))
      as Hm.
    destruct (np_mean _) as [x|u]; simpl.
    + eexists. split; [done|]. by rewrite length_map.
    + eexists. split; [done|].
      rewrite length_zip_with_same; rewrite ?length_map; congruence.
Qed.

End AggregationMore.

(** ** The whole of [__predict] *)

Section PredictProperties.
Context `{Float F}.

Variable clf : gmap string (list F).
Variable similar_by_vector : ndarray F → Z → result (list (string * F)).

(** A returned list is the filtered tail of the candidates of one search. *)
Lemma predict_search (input bad_movies hist_list val_list : list string)
    (rd : gmap string F) (checked_list rejected_list : list string)
    (n harshness : Z) (recs : list (string * F)) :
  __predict clf similar_by_vector input bad_movies hist_list val_list rd
    checked_list rejected_list n harshness = Ok recs →
  ∃ q cands,
    similar_by_vector q (n + 1) = Ok cands
    ∧ recs = filter (λ x, x.1 ∉ input ++ bad_movies ++ hist_list
                                ++ checked_list ++ rejected_list)
               (drop 1 cands).
Proof.
  unfold __predict, _similar_movies. rewrite aggregate_vectors_mean. simpl.
  destruct (query_vector _ _ _ _ _) as [q|e]; simpl; [|done].
  destruct (similar_by_vector q (n + 1)) as [cands|e] eqn:Hs; simpl; [|done].
  intros [= <-]. by exists q, cands.
Qed.

(** X4: when the search keeps gensim's contract and [n] is not negative,
    the list [__predict] returns has at most [n] entries, no movie twice,
    and no movie of the liked, disliked, history or feedback lists. *)
Theorem predict_at_most_n_new_movies
    (input bad_movies hist_list val_list : list string)
    (rd : gmap string F) (checked_list rejected_list : list string)
    (n harshness : Z) (recs : list (string * F)) :
  search_contract similar_by_vector →
  0 ≤ n →
  __predict clf similar_by_vector input bad_movies hist_list val_list rd
    checked_list rejected_list n harshness = Ok recs →
  Z.of_nat (length recs) ≤ n
  ∧ NoDup recs.*1
  ∧ Forall (λ x, (x.1 ∉ input) ∧ (x.1 ∉ bad_movies) ∧ (x.1 ∉ hist_list)
                 ∧ (x.1 ∉ checked_list) ∧ (x.1 ∉ rejected_list)) recs.
Proof.
  intros Hcontract Hn (q & cands & Hs & ->)%predict_search.
  destruct (Hcontract _ _ _ Hs) as [Hlen Hnd].
  destruct (drop_first_bounds cands n Hn Hlen Hnd) as [Hlen' Hnd'].
  split; [|split].
  - pose proof (length_filter
                  (λ x : string * F, x.1 ∉ input ++ bad_movies ++ hist_list
                                           ++ checked_list ++ rejected_list)
                  (drop 1 cands)).
    lia.
  - eapply sublist_NoDup; [exact Hnd'|].
    apply fmap_sublist, sublist_filter.
  - apply Forall_forall. intros x [Hx _]%list_elem_of_filter.
    rewrite !elem_of_app in Hx. tauto.
Qed.

(** X5: the history list, the validation list and the rejected feedback
    take no part in building the query: they only remove results at the
    end. *)
Theorem predict_other_lists_only_filter
    (input bad_movies hist_list val_list : list string)
    (rd : gmap string F) (checked_list rejected_list : list string)
    (n harshness : Z) :
  __predict clf similar_by_vector input bad_movies hist_list val_list rd
    checked_list rejected_list n harshness
  = filter (λ x, (x.1 ∉ hist_list) ∧ (x.1 ∉ rejected_list)) <$>
      __predict clf similar_by_vector input bad_movies [] [] rd
        checked_list [] n harshness.
Proof.
  unfold __predict, _similar_movies. rewrite aggregate_vectors_mean. simpl.
  destruct (query_vector _ _ _ _ _) as [q|e]; simpl; [|done].
  destruct (similar_by_vector q (n + 1)) as [cands|e]; simpl; [|done].
  f_equal. rewrite list_filter_filter.
  apply list_filter_iff. intros x.
  rewrite !elem_of_app, !elem_of_nil. tauto.
Qed.

End PredictProperties.

(** ** Movie information and JSON *)

Section JsonProperties.
Context `{Float F}.

Variable id_book : list movie_row.

Lemma split_on_cons (sep : Ascii.ascii) (s : string) :
  ∃ w ws, split_on sep s = w :: ws.
Proof.
  destruct s as [|c s]; simpl; [by eexists _, _|].
  case_decide; [by eexists _, _|].
  destruct (split_on sep s); by eexists _, _.
Qed.

Lemma concat_split_on (sep : Ascii.ascii) (s : string) :
  String.concat (String sep EmptyString) (split_on sep s) = s.
Proof.
  induction s as [|c s IH]; [done|].
  simpl. destruct (split_on_cons sep s) as (w & ws & Hs).
  rewrite Hs in *. case_decide as Hc.
  - subst c. simpl in *. rewrite IH. reflexivity.
  - destruct ws as [|w' ws]; simpl in *; rewrite <- IH; reflexivity.
Qed.

Lemma split_on_no_sep (sep : Ascii.ascii) (s : string) :
  Forall (λ w, has_char sep w = false) (split_on sep s).
Proof.
  induction s as [|c s IH]; simpl; [by repeat constructor|].
  case_decide as Hc; [by constructor|].
  destruct (split_on sep s) as [|w ws]; [by repeat constructor; simpl;
    rewrite bool_decide_eq_false_2 by done|].
  inv IH. constructor; [|done].
  simpl. by rewrite bool_decide_eq_false_2 by done.
Qed.

(** X6: the entry built from a row takes its title, year and poster from the
    row of [id_book]; its genres are the pieces of the genres string
    between the commas: joined by commas they give the string back; a score
    that [fillna] replaced by a string counts as 0. *)
Theorem json_of_row_fields (r : rec_row F) (j : MovieRec F) :
  json_of_row r = Ok j →
  ∃ m,
    rec_info r = Some m
    ∧ movie_id j = rec_movie_id r
    ∧ score j = match rec_score r with inl x => x | inr _ => of_Q 0 end
    ∧ title j = m_title m ∧ year j = m_year m
    ∧ poster_url j = m_poster_url m
    ∧ String.concat "," (genres j) = m_genres m
    ∧ Forall (λ w, has_char ","%char w = false) (genres j)
    ∧ genres j ≠ [].
Proof.
  unfold json_of_row. destruct (rec_info r) as [m|]; [|done].
  intros [= <-]. exists m. simpl.
  repeat split; try done.
  - apply concat_split_on.
  - apply split_on_no_sep.
  - by destruct (split_on_cons ","%char (m_genres m)) as (w & ws & ->).
Qed.

(** X7: [__get_JSON] returns an entry for each row, with the movie ids in
    the order of the rows, when every row has its movie information;
    otherwise it raises [ValueError]. *)
Theorem get_JSON_all_rows_or_ValueError (rec_df : list (rec_row F)) :
  match __get_JSON rec_df with
  | Ok rec_json =>
      Forall (λ r, is_Some (rec_info r)) rec_df
      ∧ movie_id <$> rec_json = rec_movie_id <$> rec_df
  | Raise e =>
      e = ValueError ∧ Exists (λ r, rec_info r = None) rec_df
  end.
Proof.
  induction rec_df as [|r rest IH]; simpl; [done|].
  unfold json_of_row. destruct (rec_info r) as [m|] eqn:Hm; simpl.
  - destruct (__get_JSON rest) as [js|e]; simpl.
    + destruct IH as [Hall Hids]. split; [by constructor|].
      simpl in *. by f_equal.
    + destruct IH as [-> Hex]. split; [done|]. by right.
  - split; [done|]. by left.
Qed.

Lemma filter_key_unique (k : string) (l : list movie_row) :
  NoDup (m_movie_id <$> l) →
  filter (λ m, m_movie_id m = k) l = []
  ∨ ∃ m, filter (λ m, m_movie_id m = k) l = [m].
Proof.
  induction l as [|a l IH]; intros Hnd; [by left|].
  rewrite fmap_cons in Hnd. apply NoDup_cons in Hnd as [Ha Hnd].
  destruct (decide (m_movie_id a = k)) as [Hk|Hk].
  - rewrite filter_cons_True by done. right. exists a. f_equal.
    destruct (filter (λ m, m_movie_id m = k) l) as [|b bs] eqn:Hf; [done|].
    assert (b ∈ filter (λ m, m_movie_id m = k) l) as Hb
      by (rewrite Hf; left).
    apply list_elem_of_filter in Hb as [Hbk Hb].
    destruct Ha. rewrite Hk, <- Hbk. by apply list_elem_of_fmap_2.
  - rewrite filter_cons_False by done. by apply IH.
Qed.

Lemma get_info_cons (x : string * F) (recs : list (string * F)) :
  __get_info id_book (x :: recs)
  = match filter (λ m, m_movie_id m = x.1) id_book with
    | [] => [ {| rec_movie_id := x.1; rec_score := inl x.2;
                 rec_info := None |} ]
    | ms => (λ m, {| rec_movie_id := x.1; rec_score := inl x.2;
                     rec_info := Some m |}) <$> ms
    end ++ __get_info id_book recs.
Proof. done. Qed.

(** X8: when no movie id occurs twice in [id_book], the merge keeps one row
    for each recommendation, in order, with its score; the information of a
    row is that of the movie of [id_book] with the same id, and is missing
    exactly when there is no such movie. *)
Theorem get_info_one_row_each (recs : list (string * F)) :
  NoDup (m_movie_id <$> id_book) →
  rec_movie_id <$> __get_info id_book recs = recs.*1
  ∧ rec_score <$> __get_info id_book recs = inl <$> recs.*2
  ∧ Forall (λ r, match rec_info r with
                 | Some m => m ∈ id_book ∧ m_movie_id m = rec_movie_id r
                 | None => rec_movie_id r ∉ m_movie_id <$> id_book
                 end) (__get_info id_book recs).
Proof.
  intros Hnd.
  induction recs as [|x recs (IH1 & IH2 & IH3)]; [by repeat split|].
  rewrite get_info_cons.
  destruct (filter_key_unique x.1 id_book Hnd) as [Hf|[m Hf]]; rewrite Hf.
  - split; [|split].
    + rewrite fmap_app, IH1. done.
    + rewrite fmap_app, IH2. done.
    + apply Forall_app. split; [|done]. constructor; [|constructor]. simpl.
      intros (m & Hid & Hm)%list_elem_of_fmap.
      assert (m ∈ filter (λ m, m_movie_id m = x.1) id_book) as Hin
        by by apply list_elem_of_filter.
      rewrite Hf in Hin. by apply not_elem_of_nil in Hin.
  - split; [|split].
    + rewrite fmap_app, IH1. done.
    + rewrite fmap_app, IH2. done.
    + apply Forall_app. split; [|done]. constructor; [|constructor]. simpl.
      assert (m ∈ filter (λ m, m_movie_id m = x.1) id_book) as Hin
        by (rewrite Hf; left).
      by apply list_elem_of_filter in Hin as [? ?].
Qed.

End JsonProperties.

(** ** Lemmas on the merge, [fillna] and the lists of [__prep_data] *)

Section PublicLemmas.
Context `{Float F}.

Variable id_book : list movie_row.

Lemma get_JSON_Forall2 (rec_df : list (rec_row F))
    (rec_json : list (MovieRec F)) :
  __get_JSON rec_df = Ok rec_json →
  Forall2 (λ r j, json_of_row r = Ok j) rec_df rec_json.
Proof.
  revert rec_json. induction rec_df as [|r rest IH]; intros js; simpl.
  - intros [= <-]. constructor.
  - destruct (json_of_row r) as [j|e] eqn:Hj; simpl; [|done].
    destruct (__get_JSON rest) as [js'|e]; simpl; [|done].
    intros [= <-]. constructor; [done|]. by apply IH.
Qed.

Lemma get_JSON_movie_ids (rec_df : list (rec_row F))
    (rec_json : list (MovieRec F)) :
  __get_JSON rec_df = Ok rec_json →
  movie_id <$> rec_json = rec_movie_id <$> rec_df.
Proof.
  intros Hall%get_JSON_Forall2.
  induction Hall as [|r j rest js Hj _ IH]; [done|].
  rewrite !fmap_cons, IH. f_equal.
  unfold json_of_row in Hj. destruct (rec_info r); [|done].
  by injection Hj as <-.
Qed.

Lemma get_JSON_scores (rec_df : list (rec_row F))
    (rec_json : list (MovieRec F)) :
  __get_JSON rec_df = Ok rec_json →
  score <$> rec_json
  = (λ s, match s with inl x => x | inr _ => of_Q 0 end) <$>
      (rec_score <$> rec_df).
Proof.
  intros Hall%get_JSON_Forall2.
  induction Hall as [|r j rest js Hj _ IH]; [done|].
  rewrite !fmap_cons, IH. f_equal.
  unfold json_of_row in Hj. destruct (rec_info r); [|done].
  by injection Hj as <-.
Qed.

Lemma fmap_inl_score (l : list F) :
  (λ s : F + string, match s with inl x => x | inr _ => of_Q 0 end) <$>
    (inl <$> l) = l.
Proof. induction l as [|x l IH]; [done|]. rewrite !fmap_cons. by f_equal. Qed.

Lemma get_JSON_missing (rec_df : list (rec_row F)) :
  Exists (λ r, rec_info r = None) rec_df →
  __get_JSON rec_df = Raise ValueError.
Proof.
  induction rec_df as [|r rest IH]; intros Hex; [by inv Hex|].
  simpl. unfold json_of_row.
  destruct (rec_info r) as [m|] eqn:Hm; [|done]. simpl.
  apply Exists_cons in Hex as [Hr|Hex]; [congruence|]. by rewrite IH.
Qed.

Lemma get_JSON_complete (rec_df : list (rec_row F)) :
  Forall (λ r, is_Some (rec_info r)) rec_df →
  ∃ rec_json, __get_JSON rec_df = Ok rec_json.
Proof.
  induction 1 as [|r rest [m Hm] _ [js IH]]; simpl; [by eexists|].
  unfold json_of_row. rewrite Hm, IH. simpl. by eexists.
Qed.

Lemma get_info_app (recs recs' : list (string * F)) :
  __get_info id_book (recs ++ recs')
  = __get_info id_book recs ++ __get_info id_book recs'.
Proof. unfold __get_info. by rewrite flat_map_app. Qed.

Lemma get_info_movie_ids (recs : list (string * F)) (r : rec_row F) :
  r ∈ __get_info id_book recs → rec_movie_id r ∈ recs.*1.
Proof.
  induction recs as [|x recs IH]; [by intros ?%not_elem_of_nil|].
  rewrite get_info_cons, elem_of_app, fmap_cons, elem_of_cons.
  intros [Hr|Hr]; [left|right; by apply IH].
  destruct (filter _ id_book) as [|m ms].
  - apply list_elem_of_singleton in Hr. by subst r.
  - apply list_elem_of_fmap in Hr as (m' & -> & _). done.
Qed.

Lemma get_info_missing (recs : list (string * F)) (x : string * F) :
  x ∈ recs → x.1 ∉ m_movie_id <$> id_book →
  Exists (λ r, rec_info r = None) (__get_info id_book recs).
Proof.
  intros (l1 & l2 & ->)%list_elem_of_split Hx.
  rewrite get_info_app, get_info_cons.
  apply Exists_app. right. apply Exists_app. left.
  destruct (filter (λ m, m_movie_id m = x.1) id_book) as [|m ms] eqn:Hf.
  - by left.
  - destruct Hx.
    assert (m ∈ filter (λ m, m_movie_id m = x.1) id_book) as Hin
      by (rewrite Hf; left).
    apply list_elem_of_filter in Hin as [<- Hin].
    by apply list_elem_of_fmap_2.
Qed.

Lemma get_info_found (recs : list (string * F)) :
  Forall (λ x, x.1 ∈ m_movie_id <$> id_book) recs →
  Forall (λ r, is_Some (rec_info r)) (__get_info id_book recs).
Proof.
  induction 1 as [|x recs Hx _ IH]; [done|].
  rewrite get_info_cons. apply Forall_app. split; [|done].
  destruct (filter (λ m, m_movie_id m = x.1) id_book) as [|m ms] eqn:Hf.
  - apply list_elem_of_fmap in Hx as (m & Hid & Hm).
    assert (m ∈ filter (λ m, m_movie_id m = x.1) id_book) as Hin
      by by apply list_elem_of_filter.
    rewrite Hf in Hin. by apply not_elem_of_nil in Hin.
  - apply Forall_fmap, Forall_forall. intros m' _. by eexists.
Qed.

Lemma get_info_unique_ids (recs : list (string * F)) :
  NoDup (m_movie_id <$> id_book) →
  rec_movie_id <$> __get_info id_book recs = recs.*1
  ∧ rec_score <$> __get_info id_book recs = inl <$> recs.*2.
Proof.
  intros Hnd. induction recs as [|x recs [IH1 IH2]]; [done|].
  rewrite get_info_cons, !fmap_app, IH1, IH2.
  by destruct (filter_key_unique x.1 id_book Hnd) as [->|[m ->]].
Qed.

Lemma fillna_movie_ids (rec_df : list (rec_row F)) :
  rec_movie_id <$> fillna rec_df = rec_movie_id <$> rec_df.
Proof.
  unfold fillna. rewrite <- list_fmap_compose. apply list_fmap_ext.
  intros _ r _. simpl. destruct (rec_score r); [|done].
  by destruct (fisnan _).
Qed.

Lemma fillna_info (rec_df : list (rec_row F)) :
  rec_info <$> fillna rec_df = rec_info <$> rec_df.
Proof.
  unfold fillna. rewrite <- list_fmap_compose. apply list_fmap_ext.
  intros _ r _. simpl. destruct (rec_score r); [|done].
  by destruct (fisnan _).
Qed.

Lemma Exists_info_fmap (l l' : list (rec_row F)) :
  rec_info <$> l = rec_info <$> l' →
  Exists (λ r, rec_info r = None) l' → Exists (λ r, rec_info r = None) l.
Proof.
  revert l. induction l' as [|r' l' IH]; intros l Heq Hex;
    [by apply Exists_nil in Hex|].
  destruct l as [|r l]; [done|].
  injection Heq as Hr Hl.
  apply Exists_cons in Hex as [Hn|Hex]; [left; congruence|right; by apply IH].
Qed.

(** The lists of [__prep_data], as lists of movie ids of rows. *)
Lemma prep_data_covers (rows : list (rating_row F)) (w : list list_row)
    (wl : option (list list_row)) (g b : Z) (i : string) :
  i ∈ r_movie_id <$> rows →
  let p := __prep_data rows (Some w) wl g b in
  i ∈ good_list p ++ bad_list p ++ hist_list p.
Proof.
  intros (r & -> & Hr)%list_elem_of_fmap. simpl.
  destruct (decide (r_movie_id r
                    ∈ (r_movie_id <$> good_df rows g)
                      ++ (r_movie_id <$> bad_df rows b))) as [Hin|Hout].
  - rewrite app_assoc. apply elem_of_app. by left.
  - rewrite app_assoc. apply elem_of_app. right.
    apply list_elem_of_fmap_2. by apply list_elem_of_filter.
Qed.

Lemma ratings_dict_other (rows : list (rating_row F)) (acc : gmap string F)
    (i : string) :
  i ∉ r_movie_id <$> rows →
  foldl (λ d r, <[r_movie_id r := r_rating r]> d) acc rows !! i = acc !! i.
Proof.
  revert acc. induction rows as [|r rows IH]; intros acc Hi; [done|].
  rewrite fmap_cons, not_elem_of_cons in Hi. destruct Hi as [Hne Hi].
  simpl. rewrite IH by done. by rewrite lookup_insert_ne.
Qed.

Lemma ratings_dict_rated (rows : list (rating_row F)) (acc : gmap string F)
    (i : string) :
  is_Some (foldl (λ d r, <[r_movie_id r := r_rating r]> d) acc rows !! i)
  ↔ is_Some (acc !! i) ∨ i ∈ r_movie_id <$> rows.
Proof.
  revert acc. induction rows as [|r rows IH]; intros acc.
  - rewrite fmap_nil, elem_of_nil. simpl. tauto.
  - rewrite fmap_cons, elem_of_cons. simpl. rewrite IH.
    destruct (decide (r_movie_id r = i)) as [->|Hne].
    + rewrite lookup_insert_eq. split; [auto|]. intros _. left. by eexists.
    + rewrite lookup_insert_ne by done.
      split; [intros [?|?]; auto|intros [?|[?|?]]; auto; congruence].
Qed.

End PublicLemmas.

(** ** The two searches *)

Section SearchDropFirst.
Context `{Float F}.

Variable clf : gmap string (list F).
Variable similar_by_vector : ndarray F → Z → result (list (string * F)).
Variable id_book : list movie_row.

(** C5 (as amended): when [similar_by_vector] keeps gensim's contract, both
    searches ask it for [n + 1] candidates and return them without the
    first, whatever it is; if it raises, so do they.  The returned list has
    no movie id twice and, when [n] is not negative, at most [n] entries.
    [get_similar_movies] answers with one entry for each returned movie, in
    order, when no movie id occurs twice in [id_book] and every returned
    movie has its row there. *)
Theorem similar_movies_at_most_n :
  search_contract similar_by_vector →
  (∀ rd harshness v n bad_movies q,
     query_vector clf rd harshness v bad_movies = Ok q →
     match similar_by_vector q (n + 1) with
     | Ok cands =>
         _similar_movies clf similar_by_vector rd harshness v n bad_movies
           = Ok (drop 1 cands)
         ∧ (0 ≤ n → Z.of_nat (length (drop 1 cands)) ≤ n)
         ∧ NoDup (drop 1 cands).*1
     | Raise e =>
         _similar_movies clf similar_by_vector rd harshness v n bad_movies
           = Raise e
     end)
  ∧ (∀ payload m_vec,
       clf !! sim_movie_id payload = Some m_vec →
       match similar_by_vector (Array1 m_vec) (num_movies payload + 1) with
       | Ok cands =>
           similar_movies_df clf similar_by_vector payload
             = Ok (drop 1 cands)
           ∧ (0 ≤ num_movies payload →
              Z.of_nat (length (drop 1 cands)) ≤ num_movies payload)
           ∧ NoDup (drop 1 cands).*1
           ∧ (NoDup (m_movie_id <$> id_book) →
              Forall (λ x, x.1 ∈ m_movie_id <$> id_book) (drop 1 cands) →
              ∃ data,
                get_similar_movies clf similar_by_vector id_book payload
                  = Ok (Data data)
                ∧ movie_id <$> data = (drop 1 cands).*1)
       | Raise e =>
           similar_movies_df clf similar_by_vector payload = Raise e
           ∧ get_similar_movies clf similar_by_vector id_book payload
             = Raise e
       end).
Proof.
  intros Hcontract.
  assert (∀ cands : list (string * F), NoDup cands.*1 →
            NoDup (drop 1 cands).*1) as Hdrop.
  { intros cands Hnd. rewrite fmap_drop.
    eapply sublist_NoDup; [exact Hnd|apply sublist_drop]. }
  split.
  - intros rd harshness v n bad_movies q Hq.
    unfold _similar_movies. rewrite Hq. simpl.
    destruct (similar_by_vector q (n + 1)) as [cands|e] eqn:Hs; simpl;
      [|done].
    destruct (Hcontract _ _ _ Hs) as [Hlen Hnd].
    split; [done|]. split; [|by apply Hdrop].
    intros Hn. by apply drop_first_bounds.
  - intros payload m_vec Hm.
    unfold get_similar_movies, similar_movies_df, clf_getitem.
    rewrite Hm. simpl.
    destruct (similar_by_vector (Array1 m_vec) (num_movies payload + 1))
      as [cands|e] eqn:Hs; simpl; [|done].
    destruct (Hcontract _ _ _ Hs) as [Hlen Hnd].
    split; [done|]. split; [|split; [by apply Hdrop|]].
    + intros Hn. by apply drop_first_bounds.
    + intros Hbook Hfound.
      destruct (get_JSON_complete _ (get_info_found id_book _ Hfound))
        as [data Hj].
      rewrite Hj. simpl. exists data. split; [done|].
      rewrite (get_JSON_movie_ids _ _ Hj).
      by destruct (get_info_unique_ids id_book (drop 1 cands) Hbook).
Qed.

End SearchDropFirst.

(** ** The public methods *)

Section PublicProperties.
Context `{Float F}.

Variable clf : gmap string (list F).
Variable similar_by_vector : ndarray F → Z → result (list (string * F)).
Variable id_book : list movie_row.

(** X9: when the search keeps gensim's contract, no movie id occurs twice
    in [id_book] and [num_movies] is not negative, an answer of
    [get_similar_movies] is a list of data: the neighbours of the movie
    after the first, with their scores, in order; at most [num_movies]
    of them, and no movie twice. *)
Theorem similar_movies_data (payload : SimInput) (resp : response F) :
  search_contract similar_by_vector →
  NoDup (m_movie_id <$> id_book) →
  0 ≤ num_movies payload →
  get_similar_movies clf similar_by_vector id_book payload = Ok resp →
  ∃ data m_vec cands,
    resp = Data data
    ∧ clf !! sim_movie_id payload = Some m_vec
    ∧ similar_by_vector (Array1 m_vec) (num_movies payload + 1) = Ok cands
    ∧ movie_id <$> data = (drop 1 cands).*1
    ∧ score <$> data = (drop 1 cands).*2
    ∧ Z.of_nat (length data) ≤ num_movies payload
    ∧ NoDup (movie_id <$> data).
Proof.
  intros Hcontract Hbook Hn.
  unfold get_similar_movies, similar_movies_df, clf_getitem.
  destruct (clf !! sim_movie_id payload) as [m_vec|]; simpl; [|done].
  destruct (similar_by_vector (Array1 m_vec) (num_movies payload + 1))
    as [cands|e] eqn:Hs; simpl; [|done].
  destruct (__get_JSON (__get_info id_book (drop 1 cands)))
    as [data|e] eqn:Hj; simpl; [|done].
  intros [= <-]. exists data, m_vec, cands.
  destruct (Hcontract _ _ _ Hs) as [Hlen Hnd].
  destruct (drop_first_bounds cands _ Hn Hlen Hnd) as [Hlen' Hnd'].
  destruct (get_info_unique_ids id_book (drop 1 cands) Hbook) as [Hids Hsc].
  assert (movie_id <$> data = (drop 1 cands).*1) as Hdata
    by by rewrite (get_JSON_movie_ids _ _ Hj).
  repeat split; try done.
  - by rewrite (get_JSON_scores _ _ Hj), Hsc, fmap_inl_score.
  - rewrite <- (length_fmap movie_id), Hdata, length_fmap. done.
  - by rewrite Hdata.
Qed.

(** X10: when a neighbour after the first has no row in [id_book],
    [get_similar_movies] raises [ValueError] ([int] of a NaN year). *)
Theorem similar_movies_missing_info (payload : SimInput) (m_vec : list F)
    (cands : list (string * F)) (x : string * F) :
  clf !! sim_movie_id payload = Some m_vec →
  similar_by_vector (Array1 m_vec) (num_movies payload + 1) = Ok cands →
  x ∈ drop 1 cands →
  x.1 ∉ m_movie_id <$> id_book →
  get_similar_movies clf similar_by_vector id_book payload
  = Raise ValueError.
Proof.
  intros Hm Hs Hx Hbook.
  unfold get_similar_movies, similar_movies_df, clf_getitem.
  rewrite Hm. simpl. rewrite Hs. simpl.
  by rewrite (get_JSON_missing _ (get_info_missing id_book _ x Hx Hbook)).
Qed.

(** X11: [get_recommendations] never returns a movie the user has rated. *)
Theorem recommendations_exclude_rated (db : database F) (payload : RecInput)
    (trace : list (event F)) (data : list (MovieRec F)) :
  (get_recommendations clf similar_by_vector id_book db payload trace).1
    = Ok (Data data) →
  Forall (λ j, movie_id j ∉ r_movie_id <$> user_ratings db (user_id payload))
    data.
Proof.
  unfold get_recommendations.
  case_bool_decide; [done|].
  set (p := __prep_data _ _ _ _ _).
  destruct (__predict _ _ _ _ _ _ _ _ _ _ _) as [preds|e] eqn:Hp; [|done].
  destruct (__get_JSON _) as [rec_json|e] eqn:Hj; [|done].
  intros [= <-]. apply Forall_forall. intros j Hj' Hrated.
  apply (list_elem_of_fmap_2 movie_id) in Hj'.
  rewrite (get_JSON_movie_ids _ _ Hj), fillna_movie_ids in Hj'.
  apply list_elem_of_fmap in Hj' as (r & Hid & Hr).
  apply get_info_movie_ids in Hr. rewrite <- Hid in Hr.
  apply predict_search in Hp as (q & cands & _ & ->).
  apply list_elem_of_fmap in Hr as (x & Hx & [Hout _]%list_elem_of_filter).
  destruct Hout. rewrite <- Hx.
  pose proof (prep_data_covers _ (user_watched db (user_id payload))
                (Some (user_watchlist db (user_id payload)))
                (good_threshold payload) (bad_threshold payload) _ Hrated)
    as Hcov.
  simpl in Hcov. fold p in Hcov.
  rewrite !elem_of_app in Hcov. rewrite !elem_of_app. tauto.
Qed.

(** X12: for a user with ratings the request runs the four queries and
    [__predict]; it queues one background task, holding the returned list
    and the request's parameters, exactly when it returns data; it never
    answers with a message, and it does not close the cursor itself. *)
Theorem recommendations_task_with_data (db : database F)
    (payload : RecInput) (trace : list (event F)) :
  user_ratings db (user_id payload) ≠ [] →
  let out :=
    get_recommendations clf similar_by_vector id_book db payload trace in
  let started :=
    trace ++ [Connect; Execute "user_ratings" (user_id payload);
              Execute "user_watchlist" (user_id payload);
              Execute "user_watched" (user_id payload);
              Execute "user_willnotwatchlist" (user_id payload); Predict] in
  match out.1 with
  | Ok (Data rec_json) =>
      out.2 = started ++ [AddTask rec_json (user_id payload)
                            (num_recs payload) (good_threshold payload)
                            (bad_threshold payload) (harshness payload)]
  | Ok (Message _) => False
  | Raise _ => out.2 = started
  end.
Proof.
  intros Hrows. unfold get_recommendations.
  rewrite bool_decide_eq_false_2
    by (by destruct (user_ratings db (user_id payload))).
  destruct (__predict _ _ _ _ _ _ _ _ _ _ _) as [preds|e]; simpl;
    [|by rewrite <- !app_assoc].
  destruct (__get_JSON _) as [rec_json|e]; simpl; by rewrite <- !app_assoc.
Qed.

(** X13: with a watched frame, every rated movie is in the liked, the
    disliked or the history list, no movie of the history list is liked or
    disliked, and each list keeps the order of the ratings. *)
Theorem prep_data_watched_lists (rows : list (rating_row F))
    (w : list list_row) (wl : option (list list_row)) (g b : Z) :
  let p := __prep_data rows (Some w) wl g b in
  (∀ i, i ∈ r_movie_id <$> rows
        ↔ i ∈ good_list p ++ bad_list p ++ hist_list p)
  ∧ Forall (λ i, (i ∉ good_list p) ∧ (i ∉ bad_list p)) (hist_list p)
  ∧ good_list p `sublist_of` (r_movie_id <$> rows)
  ∧ bad_list p `sublist_of` (r_movie_id <$> rows)
  ∧ hist_list p `sublist_of` (r_movie_id <$> rows).
Proof.
  simpl. split; [|split; [|repeat split]].
  - intros i. split; [apply (prep_data_covers rows w wl g b)|].
    rewrite !elem_of_app.
    intros [Hi|[Hi|Hi]];
      apply list_elem_of_fmap in Hi as (r & -> & [_ Hr]%list_elem_of_filter);
      by apply list_elem_of_fmap_2.
  - apply Forall_forall. intros i (r & -> & [Hr _]%list_elem_of_filter)
      %list_elem_of_fmap.
    rewrite elem_of_app in Hr. tauto.
  - apply fmap_sublist, sublist_filter.
  - apply fmap_sublist, sublist_filter.
  - apply fmap_sublist, sublist_filter.
Qed.

(** X14: the rating map has an entry for the rated movies and for no other;
    for a movie rated more than once the entry is the rating of the last
    row. *)
Theorem ratings_dict_last_rating (before after : list (rating_row F))
    (r : rating_row F) (w wl : option (list list_row)) (g b : Z) :
  r_movie_id r ∉ r_movie_id <$> after →
  let p := __prep_data (before ++ r :: after) w wl g b in
  ratings_dict p !! r_movie_id r = Some (r_rating r)
  ∧ ∀ i, is_Some (ratings_dict p !! i)
         ↔ i ∈ r_movie_id <$> (before ++ r :: after).
Proof.
  intros Hlast. simpl. split.
  - unfold to_ratings_dict. rewrite foldl_app. simpl.
    rewrite ratings_dict_other by done. apply lookup_insert_eq.
  - intros i. unfold to_ratings_dict. rewrite ratings_dict_rated.
    rewrite lookup_empty. split; [intros [[? ?]|?]|]; auto; done.
Qed.

Lemma length_omap_filter {A B} (f : A → option B) (P : A → Prop)
    `{!∀ x, Decision (P x)} (l : list A) :
  Forall (λ x, is_Some (f x) ↔ P x) l →
  length (omap f l) = length (filter P l).
Proof.
  induction 1 as [|x l Hx _ IH]; [done|].
  change (omap f (x :: l))
    with (match f x with Some y => y :: omap f l | None => omap f l end).
  destruct (f x) as [y|] eqn:Hy.
  - rewrite filter_cons_True by (apply Hx; by eexists).
    rewrite !length_cons. by rewrite IH.
  - rewrite filter_cons_False; [done|].
    intros HP%Hx. by destruct HP.
Qed.

(** X15: with the lists and the rating map of [__prep_data], no liked movie
    is skipped for want of a rating: every liked movie that has a vector
    contributes one vector to the pool. *)
Theorem liked_movies_all_pooled (rows : list (rating_row F))
    (w wl : option (list list_row)) (g b : Z) :
  let p := __prep_data rows w wl g b in
  ∃ pool,
    aggregate_pool clf (ratings_dict p) (good_list p) [] = Ok pool
    ∧ length pool
      = length (filter (λ i, is_Some (clf !! i)) (good_list p)).
Proof.
  simpl. eexists. split; [apply aggregate_pool_entries|].
  simpl. rewrite app_nil_r. apply length_omap_filter.
  apply Forall_forall.
  intros i (r & -> & [_ Hr]%list_elem_of_filter)%list_elem_of_fmap.
  assert (is_Some (to_ratings_dict rows !! r_movie_id r)) as [x Hx].
  { unfold to_ratings_dict. apply ratings_dict_rated. right.
    by apply list_elem_of_fmap_2. }
  unfold pool_entry. rewrite Hx.
  destruct (clf !! r_movie_id r) as [v|]; [|by split; intros [? ?]].
  rewrite bool_decide_eq_true_2; [by split; eexists|].
  intros Hempty. by rewrite Hempty, lookup_empty in Hx.
Qed.

End PublicProperties.

(** ** Movie lists *)

Section MovieListProperties.
Context `{Float F}.

Variable clf : gmap string (list F).
Variable similar_by_vector : ndarray F → Z → result (list (string * F)).
Variable id_book : list movie_row.
Variable list_movies : Z → list movie_row.

(** X16: [get_movie_list] returns the movies of the list in order, and
    recommendations none of which is a movie of the list; an empty list
    gets no recommendation, and only a non-empty list can make it fail. *)
Theorem movie_list_data_and_recs (list_id : Z) :
  match get_movie_list clf similar_by_vector id_book list_movies list_id with
  | Ok lj =>
      mv_movie_id <$> lj_data lj = m_movie_id <$> list_movies list_id
      ∧ Forall (λ j, movie_id j ∉ m_movie_id <$> list_movies list_id)
          (lj_recs lj)
      ∧ (list_movies list_id = [] → lj_recs lj = [])
  | Raise _ => list_movies list_id ≠ []
  end.
Proof.
  unfold get_movie_list.
  destruct (list_movies list_id) as [|movie rest] eqn:Hl.
  { by rewrite bool_decide_eq_false_2 by (simpl; lia). }
  rewrite bool_decide_eq_true_2 by (simpl; lia).
  destruct (__predict _ _ _ _ _ _ _ _ _ _ _) as [preds|e] eqn:Hp; simpl;
    [|done].
  destruct (__get_JSON _) as [rec_json|e] eqn:Hj; simpl; [|done].
  split; [|split; [|done]].
  - rewrite <- list_fmap_compose. done.
  - apply Forall_forall. intros j Hj' Hlisted.
    apply (list_elem_of_fmap_2 movie_id) in Hj'.
    rewrite (get_JSON_movie_ids _ _ Hj), fillna_movie_ids in Hj'.
    apply list_elem_of_fmap in Hj' as (r & Hid & Hr).
    apply get_info_movie_ids in Hr. rewrite <- Hid in Hr.
    apply predict_search in Hp as (q & cands & _ & ->).
    apply list_elem_of_fmap in Hr as (x & Hx & [Hout _]%list_elem_of_filter).
    destruct Hout. rewrite <- Hx. apply elem_of_app. by left.
Qed.

End MovieListProperties.

(** ** The nearest title, with the reference model *)

Section TitleFound.
Context `{Float F}.

Variable clf : gmap string (list F).

Lemma argmax_from_bound (l : list F) (best_i : nat) (best : F) (i : nat) :
  (best_i < i)%nat → (argmax_from best_i best i l < i + length l)%nat.
Proof.
  revert best_i best i. induction l as [|x l IH]; intros bi b i Hi; simpl.
  - lia.
  - destruct (fltb b x).
    + pose proof (IH i x (S i) ltac:(lia)). lia.
    + pose proof (IH bi b (S i) ltac:(lia)). lia.
Qed.

Lemma similarities_defined (id : string) (l : list string) :
  is_Some (clf !! id) →
  Forall (λ i, is_Some (clf !! i)) l →
  ∃ sims, mapM (gensim_similarity clf id) l = Ok sims
          ∧ length sims = length l.
Proof.
  intros [v Hv]. induction 1 as [|i l [u Hu] _ (sims & IH & Hlen)].
  - by exists [].
  - assert (gensim_similarity clf id i = Ok (dot (unitvec v) (unitvec u)))
      as Hsim.
    { unfold gensim_similarity, clf_getitem. by rewrite Hv, Hu. }
    exists (dot (unitvec v) (unitvec u) :: sims).
    change (mapM (gensim_similarity clf id) (i :: l))
      with (y ← gensim_similarity clf id i;
            k ← mapM (gensim_similarity clf id) l; mret (y :: k)).
    rewrite Hsim. simpl. rewrite IH. simpl. by rewrite Hlen.
Qed.

(** X17: when the id and at least one candidate are in the vocabulary, the
    lookup (with gensim's [most_similar_to_given] taken as the argmax of
    the similarities) returns a candidate that is in the vocabulary. *)
Theorem most_similar_title_found (id : string) (id_list : list string) :
  is_Some (clf !! id) →
  Exists (λ i, is_Some (clf !! i)) id_list →
  ∃ match_,
    get_most_similar_title clf (gensim_most_similar_to_given clf) id id_list
    = Ok match_
    ∧ match_ ∈ id_list
    ∧ is_Some (clf !! match_).
Proof.
  intros Hid Hex.
  rewrite most_similar_title_candidates by done.
  set (l := filter (λ i, i ∈ dom clf) id_list).
  assert (Forall (λ i, is_Some (clf !! i)) l) as Hall.
  { apply Forall_forall. intros i [Hi _]%list_elem_of_filter.
    by apply elem_of_dom. }
  assert (l ≠ []) as Hne.
  { apply Exists_exists in Hex as (i & Hi & Hv).
    assert (i ∈ l) as Hin
      by (apply list_elem_of_filter; split; [by apply elem_of_dom|done]).
    intros Hl. rewrite Hl in Hin. by apply not_elem_of_nil in Hin. }
  destruct (similarities_defined id l Hid Hall) as (sims & Hs & Hlen).
  unfold gensim_most_similar_to_given. rewrite Hs. simpl.
  destruct sims as [|x sims]; [by destruct l|]. simpl.
  pose proof (argmax_from_bound sims 0 x 1 ltac:(lia)) as Hk.
  destruct (lookup_lt_is_Some_2 l (argmax_from 0 x 1 sims)) as [e He].
  { rewrite <- Hlen. simpl. lia. }
  rewrite He. exists e. split; [done|].
  apply list_elem_of_lookup_2 in He.
  apply list_elem_of_filter in He as [Hd He].
  split; [done|]. by apply elem_of_dom.
Qed.

End TitleFound.

(** ** The cursor *)

Section CursorProperties.
Context {F : Type}.

Variable rows_of : string → option (list cell) → list (list cell).

(** X18: [__run_query] connects and executes the query.  It fails only for
    [fetch="one"], when no row (or an empty row) comes back, and then it has
    neither committed nor closed the cursor; otherwise it commits if asked
    to, closes the cursor, and returns the first column of the first row,
    all the rows, or nothing, as [fetch] says. *)
Theorem run_query_outcome (query : string) (params : option (list cell))
    (commit : bool) (fetch : string) (trace : list cursor_event) :
  let out := __run_query rows_of query params commit fetch trace in
  let executed := trace ++ [CurConnect; CurExecute query params] in
  match out.1 with
  | Raise e =>
      fetch = "one" ∧ out.2 = executed
      ∧ match rows_of query params with
        | [] => e = TypeError
        | row :: _ => row = [] ∧ e = IndexError
        end
  | Ok r =>
      out.2 = executed ++ (if commit then [CurCommit] else []) ++ [CurClose]
      ∧ r = (if bool_decide (fetch = "one")
             then match rows_of query params with
                  | (c :: _) :: _ => FetchedOne c
                  | _ => r
                  end
             else if bool_decide (fetch = "all")
                  then FetchedAll (rows_of query params)
                  else FetchedNone)
  end.
Proof.
  unfold __run_query. simpl.
  case_bool_decide as Hone.
  - destruct (rows_of query params) as [|[|c row] rows]; simpl.
    + by rewrite <- app_assoc.
    + by rewrite <- app_assoc.
    + destruct commit; by rewrite <- !app_assoc.
  - case_bool_decide; simpl; destruct commit; by rewrite <- !app_assoc.
Qed.

(** X19: [delete_movie_list] executes the DELETE, commits and closes the
    cursor; it returns the first deleted row, and raises [IndexError] when
    no list had the id. *)
Theorem delete_movie_list_outcome (list_id : Z) (trace : list cursor_event) :
  delete_movie_list rows_of list_id trace
  = (match rows_of delete_list_query (Some [CInt list_id]) with
     | [] => Raise IndexError
     | row :: _ => Ok row
     end,
     trace ++ [CurConnect;
               CurExecute delete_list_query (Some [CInt list_id]);
               CurCommit; CurClose]).
Proof.
  unfold delete_movie_list, __run_query. simpl.
  destruct (rows_of delete_list_query (Some [CInt list_id]));
    by rewrite <- !app_assoc.
Qed.

Lemma insert_movie_recs_events (rec_id : cell)
    (model_recs : list (MovieRec F)) (num num_recs good bad harsh : Z)
    (trace : list cursor_event) :
  ∃ inserts,
    insert_movie_recs rec_id num model_recs num_recs good bad harsh trace
    = trace ++ inserts
    ∧ length inserts = length model_recs
    ∧ ∀ k movie,
        model_recs !! k = Some movie →
        inserts !! k
        = Some (CurExecute create_movie_rec
                  (Some [rec_id; CInt (num + Z.of_nat k + 1);
                         CStr (movie_id movie); CInt num_recs; CInt good;
                         CInt bad; CInt harsh])).
Proof.
  revert num trace.
  induction model_recs as [|movie rest IH]; intros num trace.
  - exists []. by rewrite app_nil_r.
  - simpl. destruct (IH (num + 1) (trace ++ [CurExecute create_movie_rec
                      (Some [rec_id; CInt (num + 1); CStr (movie_id movie);
                             CInt num_recs; CInt good; CInt bad;
                             CInt harsh])]))
      as (inserts & -> & Hlen & Hk).
    eexists (_ :: inserts). rewrite <- app_assoc. split; [done|].
    split; [simpl; by rewrite Hlen|].
    intros [|k] movie' Hm; simpl in *.
    + injection Hm as <-.
      by replace (num + Z.of_nat 0 + 1) with (num + 1) by lia.
    + rewrite (Hk k movie' Hm).
      by replace (num + Z.of_nat (S k) + 1)
        with (num + 1 + Z.of_nat k + 1) by lia.
Qed.

(** X20: when the first INSERT returns the id of the new recommendation,
    the background task inserts one row for each returned movie, numbered
    1, 2, ... in the order of the list, then commits and closes the
    cursor. *)
Theorem commit_to_database_rows (date : string)
    (model_recs : list (MovieRec F)) (user n good bad harsh : Z)
    (trace : list cursor_event) (rec_id : cell) (row : list cell)
    (rest : list (list cell)) :
  rows_of create_rec (Some [CInt user; CStr date; CStr "ratings"])
    = (rec_id :: row) :: rest →
  ∃ inserts,
    _commit_to_database rows_of date model_recs user n good bad harsh trace
    = (Ok (),
       trace
       ++ [CurExecute create_rec
             (Some [CInt user; CStr date; CStr "ratings"])]
       ++ inserts ++ [CurCommit; CurClose])
    ∧ length inserts = length model_recs
    ∧ ∀ k movie,
        model_recs !! k = Some movie →
        inserts !! k
        = Some (CurExecute create_movie_rec
                  (Some [rec_id; CInt (Z.of_nat k + 1);
                         CStr (movie_id movie); CInt n; CInt good;
                         CInt bad; CInt harsh])).
Proof.
  intros Hrow. unfold _commit_to_database. rewrite Hrow.
  destruct (insert_movie_recs_events rec_id model_recs 0 n good bad harsh
              (trace ++ [CurExecute create_rec
                           (Some [CInt user; CStr date; CStr "ratings"])]))
    as (inserts & -> & Hlen & Hk).
  exists inserts. rewrite <- !app_assoc. split; [done|]. split; [done|].
  intros k movie Hm. by rewrite (Hk k movie Hm).
Qed.

End CursorProperties.

(** ** Returned recommendations *)

Section RecommendationData.
Context `{Float F}.

Variable clf : gmap string (list F).
Variable similar_by_vector : ndarray F → Z → result (list (string * F)).
Variable id_book : list movie_row.

Lemma fillna_scores (rec_df : list (rec_row F)) (scores : list F) :
  rec_score <$> rec_df = inl <$> scores →
  (λ s, match s with inl x => x | inr _ => of_Q 0 end) <$>
    (rec_score <$> fillna rec_df)
  = (λ x, if fisnan x then of_Q 0 else x) <$> scores.
Proof.
  revert scores. induction rec_df as [|r rest IH]; intros [|x scores] Heq;
    try done.
  rewrite !fmap_cons in Heq. injection Heq as Hr Hrest.
  unfold fillna in *. rewrite !fmap_cons, (IH scores Hrest). f_equal.
  rewrite Hr. by destruct (fisnan x); simpl; rewrite ?Hr.
Qed.

(** X21: when a movie that [__predict] returns has no row in [id_book],
    the whole request fails with [ValueError] ([int] of the string
    ["None"]); no task is queued. *)
Theorem recommendations_missing_info (db : database F) (payload : RecInput)
    (trace : list (event F)) (preds : list (string * F)) (x : string * F) :
  user_ratings db (user_id payload) ≠ [] →
  (let p := __prep_data (user_ratings db (user_id payload))
              (Some (user_watched db (user_id payload)))
              (Some (user_watchlist db (user_id payload)))
              (good_threshold payload) (bad_threshold payload) in
   __predict clf similar_by_vector (good_list p) (bad_list p) (hist_list p)
     (val_list p) (ratings_dict p) [] [] (num_recs payload)
     (harshness payload) = Ok preds) →
  x ∈ preds →
  x.1 ∉ m_movie_id <$> id_book →
  get_recommendations clf similar_by_vector id_book db payload trace
  = (Raise ValueError,
     trace ++ [Connect; Execute "user_ratings" (user_id payload);
               Execute "user_watchlist" (user_id payload);
               Execute "user_watched" (user_id payload);
               Execute "user_willnotwatchlist" (user_id payload); Predict]).
Proof.
  intros Hrows Hp Hx Hbook. unfold get_recommendations.
  rewrite bool_decide_eq_false_2
    by (by destruct (user_ratings db (user_id payload))).
  cbv zeta in Hp |- *. rewrite Hp.
  rewrite (get_JSON_missing (fillna (__get_info id_book preds))).
  - by rewrite <- !app_assoc.
  - eapply Exists_info_fmap; [apply fillna_info|].
    by apply (get_info_missing id_book preds x).
Qed.

(** X22: when the search keeps gensim's contract, no movie id occurs twice
    in [id_book] and [num_recs] is not negative, the data
    [get_recommendations] returns are the movies [__predict] returned, in
    order, a NaN score replaced by 0; at most [num_recs] of them, no movie
    twice. *)
Theorem recommendations_data (db : database F) (payload : RecInput)
    (trace : list (event F)) (data : list (MovieRec F)) :
  search_contract similar_by_vector →
  NoDup (m_movie_id <$> id_book) →
  0 ≤ num_recs payload →
  (get_recommendations clf similar_by_vector id_book db payload trace).1
    = Ok (Data data) →
  ∃ preds,
    (let p := __prep_data (user_ratings db (user_id payload))
                (Some (user_watched db (user_id payload)))
                (Some (user_watchlist db (user_id payload)))
                (good_threshold payload) (bad_threshold payload) in
     __predict clf similar_by_vector (good_list p) (bad_list p)
       (hist_list p) (val_list p) (ratings_dict p) [] [] (num_recs payload)
       (harshness payload) = Ok preds)
    ∧ movie_id <$> data = preds.*1
    ∧ score <$> data = (λ x, if fisnan x then of_Q 0 else x) <$> preds.*2
    ∧ Z.of_nat (length data) ≤ num_recs payload
    ∧ NoDup (movie_id <$> data).
Proof.
  intros Hcontract Hbook Hn. unfold get_recommendations.
  case_bool_decide; [done|].
  set (p := __prep_data _ _ _ _ _).
  destruct (__predict _ _ _ _ _ _ _ _ _ _ _) as [preds|e] eqn:Hp; [|done].
  destruct (__get_JSON _) as [rec_json|e] eqn:Hj; [|done].
  intros [= <-]. exists preds. split; [done|].
  destruct (get_info_unique_ids id_book preds Hbook) as [Hids Hsc].
  assert (movie_id <$> rec_json = preds.*1) as Hdata
    by by rewrite (get_JSON_movie_ids _ _ Hj), fillna_movie_ids.
  apply predict_search in Hp as Hsearch.
  destruct Hsearch as (q & cands & Hs & Hpreds).
  destruct (Hcontract _ _ _ Hs) as [Hlen Hnd].
  destruct (drop_first_bounds cands _ Hn Hlen Hnd) as [Hlen' Hnd'].
  split; [done|]. split; [|split].
  - by rewrite (get_JSON_scores _ _ Hj), (fillna_scores _ _ Hsc).
  - rewrite <- (length_fmap movie_id), Hdata, length_fmap, Hpreds.
    pose proof (length_filter
                  (λ x : string * F,
                     x.1 ∉ good_list p ++ bad_list p ++ hist_list p
                           ++ [] ++ [])
                  (drop 1 cands)).
    lia.
  - rewrite Hdata, Hpreds.
    eapply sublist_NoDup; [exact Hnd'|].
    apply fmap_sublist, sublist_filter.
Qed.

End RecommendationData.

(** ** Kept, duplicate and removed results *)

Section FilterMore.
Context {F : Type}.

(** X23: every result is kept, or is a duplicate of a liked movie, or is
    removed for being in another list, and is so once: the three lists
    together are the results, rearranged; no kept result is a duplicate. *)
Theorem remove_dupes_accounts_for_all (recs : list (string * F))
    (input bad_movies hist_list feedback_list : list string) :
  let kept :=
    (_remove_dupes recs input bad_movies hist_list feedback_list).1 in
  let dupes :=
    (_remove_dupes recs input bad_movies hist_list feedback_list).2 in
  let others :=
    filter (λ x, (x.1 ∉ input)
                 ∧ (x.1 ∈ bad_movies ++ hist_list ++ feedback_list)) recs in
  kept ++ dupes ++ others ≡ₚ recs
  ∧ Forall (λ x, x ∉ dupes) kept.
Proof.
  simpl. split.
  - induction recs as [|x recs IH]; [done|].
    rewrite !filter_cons.
    destruct (decide (x.1 ∈ input)) as [Hi|Hi].
    + rewrite decide_False by (rewrite elem_of_app; tauto).
      rewrite decide_False by tauto.
      rewrite <- app_comm_cons, <- Permutation_middle. by constructor.
    + destruct (decide (x.1 ∈ bad_movies ++ hist_list ++ feedback_list))
        as [Ho|Ho].
      * rewrite decide_False by (rewrite elem_of_app; tauto).
        rewrite decide_True by tauto.
        rewrite app_assoc, <- Permutation_middle, <- app_assoc.
        by constructor.
      * rewrite decide_True by (rewrite elem_of_app; tauto).
        rewrite decide_False by tauto. simpl. by constructor.
  - apply Forall_forall. intros x [Hx _]%list_elem_of_filter
      [Hd _]%list_elem_of_filter.
    rewrite elem_of_app in Hx. tauto.
Qed.

End FilterMore.

(** ** The further properties on the small embedding space *)

(** X3, witness: the vectors of [space] have two components. *)
Lemma aggregate_keeps_dimension_witness :
  (∃ a, _aggregate_vectors space rated_B ["A"; "B"] ["D"] = Ok a
        ∧ match a with
          | Scalar _ => aggregate_pool space rated_B ["A"; "B"] ["D"] = Ok []
          | Array1 u => length u = 2%nat
          end)
  ∧ (∃ u, query_vector space rated_B 3 (Array1 [1; 0]%float) ["C"]
          = Ok (Array1 u)
          ∧ length u = 2%nat).
Proof.
  apply (aggregate_keeps_dimension space 2 rated_B ["A"; "B"] ["D"] ["C"] 3
           [1; 0]%float).
  - apply (bool_decide_unpack (map_Forall (λ _ u, length u = 2%nat) space)).
    vm_compute. exact I.
  - reflexivity.
Defined.

(** X4, witness: liked [A], disliked [C], two recommendations asked. *)
Lemma predict_at_most_n_new_movies_witness :
  Z.of_nat (length [("B", 0.9%float); ("D", 0%float)]) ≤ 2
  ∧ NoDup [("B", 0.9%float); ("D", 0%float)].*1
  ∧ Forall (λ x, (x.1 ∉ ["A"]) ∧ (x.1 ∉ ["C"]) ∧ (x.1 ∉ @nil string)
                 ∧ (x.1 ∉ @nil string) ∧ (x.1 ∉ @nil string))
      [("B", 0.9%float); ("D", 0%float)].
Proof.
  apply (predict_at_most_n_new_movies space (gensim_similar_by_vector space)
           ["A"] ["C"] [] [] ∅ [] [] 2 1).
  - apply gensim_search_contract.
  - lia.
  - reflexivity.
Defined.

(** X6, witness: the row of [B], its score replaced by [fillna]. *)
Lemma json_of_row_fields_witness :
  ∃ m,
    rec_info row_of_B = Some m
    ∧ movie_id json_of_B = rec_movie_id row_of_B
    ∧ score json_of_B
      = match rec_score row_of_B with inl x => x | inr _ => of_Q 0 end
    ∧ title json_of_B = m_title m ∧ year json_of_B = m_year m
    ∧ poster_url json_of_B = m_poster_url m
    ∧ String.concat "," (genres json_of_B) = m_genres m
    ∧ Forall (λ w, has_char ","%char w = false) (genres json_of_B)
    ∧ genres json_of_B ≠ [].
Proof.
  apply (json_of_row_fields row_of_B json_of_B).
  vm_compute. reflexivity.
Defined.

(** X8, witness: the book of [space] has no movie twice. *)
Lemma get_info_one_row_each_witness :
  rec_movie_id <$> __get_info space_book [("B", 0.9%float); ("Z", 0%float)]
    = ["B"; "Z"]
  ∧ rec_score <$> __get_info space_book [("B", 0.9%float); ("Z", 0%float)]
    = [inl 0.9%float; inl 0%float]
  ∧ Forall (λ r, match rec_info r with
                 | Some m => m ∈ space_book ∧ m_movie_id m = rec_movie_id r
                 | None => rec_movie_id r ∉ m_movie_id <$> space_book
                 end)
      (__get_info space_book [("B", 0.9%float); ("Z", 0%float)]).
Proof.
  apply (get_info_one_row_each space_book
           [("B", 0.9%float); ("Z", 0%float)]).
  apply (bool_decide_unpack _). vm_compute. exact I.
Defined.

(** X9, witness: the two nearest movies of [A] after the first. *)
Lemma similar_movies_data_witness :
  ∃ data m_vec cands,
    Data two_recs = Data data
    ∧ space !! "A" = Some m_vec
    ∧ gensim_similar_by_vector space (Array1 m_vec) (2 + 1) = Ok cands
    ∧ movie_id <$> data = (drop 1 cands).*1
    ∧ score <$> data = (drop 1 cands).*2
    ∧ Z.of_nat (length data) ≤ 2
    ∧ NoDup (movie_id <$> data).
Proof.
  apply (similar_movies_data space (gensim_similar_by_vector space)
           space_book {| sim_movie_id := "A"; num_movies := 2 |}
           (Data two_recs)).
  - apply gensim_search_contract.
  - apply (bool_decide_unpack _). vm_compute. exact I.
  - simpl. lia.
  - reflexivity.
Defined.

(** X10, witness: [D], the second neighbour of [A], is not in the short
    book. *)
Lemma similar_movies_missing_info_witness :
  get_similar_movies space (gensim_similar_by_vector space) short_book
    {| sim_movie_id := "A"; num_movies := 2 |}
  = Raise ValueError.
Proof.
  apply (similar_movies_missing_info space (gensim_similar_by_vector space)
           short_book {| sim_movie_id := "A"; num_movies := 2 |}
           [1; 0]%float
           [("A", 1%float); ("B", 0.9%float); ("D", 0%float)]
           ("D", 0%float)).
  - reflexivity.
  - reflexivity.
  - simpl. apply elem_of_cons. right. apply elem_of_cons. by left.
  - apply (bool_decide_unpack _). vm_compute. exact I.
Defined.

(** X11, witness: user 2 rated [A] and is recommended [B] and [D]. *)
Lemma recommendations_exclude_rated_witness :
  Forall (λ j, movie_id j ∉ r_movie_id <$> user_ratings space_db 2) two_recs.
Proof.
  apply (recommendations_exclude_rated space (gensim_similar_by_vector space)
           space_book space_db
           {| user_id := 2; num_recs := 2; good_threshold := 4;
              bad_threshold := 2; harshness := 1 |} [] two_recs).
  reflexivity.
Defined.

(** X12, witness: the request of user 2. *)
Lemma recommendations_task_with_data_witness :
  (get_recommendations space (gensim_similar_by_vector space) space_book
     space_db
     {| user_id := 2; num_recs := 2; good_threshold := 4;
        bad_threshold := 2; harshness := 1 |} []).2
  = [Connect; Execute "user_ratings" 2; Execute "user_watchlist" 2;
     Execute "user_watched" 2; Execute "user_willnotwatchlist" 2; Predict;
     AddTask two_recs 2 2 4 2 1].
Proof.
  pose proof (recommendations_task_with_data space
                (gensim_similar_by_vector space) space_book space_db
                {| user_id := 2; num_recs := 2; good_threshold := 4;
                   bad_threshold := 2; harshness := 1 |} []
                ltac:(discriminate)) as Hout.
  exact Hout.
Defined.

(** X14, witness: user 2 rated [A] 5, then 3. *)
Lemma ratings_dict_last_rating_witness :
  ratings_dict (__prep_data (user_ratings space_db 2) None None 4 2) !! "A"
    = Some 3%float
  ∧ ∀ i, is_Some (ratings_dict
                    (__prep_data (user_ratings space_db 2) None None 4 2)
                  !! i)
         ↔ i ∈ r_movie_id <$> user_ratings space_db 2.
Proof.
  apply (ratings_dict_last_rating
           [ {| r_date := "2020-01-01"; r_movie_id := "A";
                r_rating := 5%float |} ] []
           {| r_date := "2020-02-01"; r_movie_id := "A";
              r_rating := 3%float |} None None 4 2).
  apply not_elem_of_nil.
Defined.

(** X17, witness: [A] and the candidates [C], [B] and [D] are in the
    vocabulary, [Z] is not. *)
Lemma most_similar_title_found_witness :
  ∃ match_,
    get_most_similar_title space (gensim_most_similar_to_given space) "A"
      ["Z"; "C"; "B"; "D"]
    = Ok match_
    ∧ match_ ∈ ["Z"; "C"; "B"; "D"]
    ∧ is_Some (space !! match_).
Proof.
  apply (most_similar_title_found space "A" ["Z"; "C"; "B"; "D"]).
  - by eexists.
  - right. left. by eexists.
Defined.

(** X20, witness: the recommendation gets the id 7. *)
Lemma commit_to_database_rows_witness :
  ∃ inserts,
    _commit_to_database one_row_cursor "2020-03-01" two_recs 2 2 4 2 1 []
    = (Ok (),
       [] ++ [CurExecute create_rec
                (Some [CInt 2; CStr "2020-03-01"; CStr "ratings"])]
       ++ inserts ++ [CurCommit; CurClose])
    ∧ length inserts = length two_recs
    ∧ ∀ k movie,
        two_recs !! k = Some movie →
        inserts !! k
        = Some (CurExecute create_movie_rec
                  (Some [CInt 7; CInt (Z.of_nat k + 1);
                         CStr (movie_id movie); CInt 2; CInt 4; CInt 2;
                         CInt 1])).
Proof.
  apply (commit_to_database_rows one_row_cursor "2020-03-01" two_recs 2 2 4
           2 1 [] (CInt 7) [] []).
  reflexivity.
Defined.

(** X21, witness: user 2 is recommended [B] and [D]; the short book has no
    row for [D]. *)
Lemma recommendations_missing_info_witness :
  get_recommendations space (gensim_similar_by_vector space) short_book
    space_db
    {| user_id := 2; num_recs := 2; good_threshold := 4;
       bad_threshold := 2; harshness := 1 |} []
  = (Raise ValueError,
     [] ++ [Connect; Execute "user_ratings" 2; Execute "user_watchlist" 2;
            Execute "user_watched" 2; Execute "user_willnotwatchlist" 2;
            Predict]).
Proof.
  apply (recommendations_missing_info space (gensim_similar_by_vector space)
           short_book space_db
           {| user_id := 2; num_recs := 2; good_threshold := 4;
              bad_threshold := 2; harshness := 1 |} []
           [("B", 0.9%float); ("D", 0%float)] ("D", 0%float)).
  - discriminate.
  - reflexivity.
  - apply elem_of_cons. right. apply elem_of_cons. by left.
  - apply (bool_decide_unpack _). vm_compute. exact I.
Defined.

(** X22, witness: the request of user 2 with the whole book. *)
Lemma recommendations_data_witness :
  ∃ preds,
    (let p := __prep_data (user_ratings space_db 2)
                (Some (user_watched space_db 2))
                (Some (user_watchlist space_db 2)) 4 2 in
     __predict space (gensim_similar_by_vector space) (good_list p)
       (bad_list p) (hist_list p) (val_list p) (ratings_dict p) [] [] 2 1
     = Ok preds)
    ∧ movie_id <$> two_recs = preds.*1
    ∧ score <$> two_recs
      = (λ x, if fisnan x then of_Q 0 else x) <$> preds.*2
    ∧ Z.of_nat (length two_recs) ≤ 2
    ∧ NoDup (movie_id <$> two_recs).
Proof.
  apply (recommendations_data space (gensim_similar_by_vector space)
           space_book space_db
           {| user_id := 2; num_recs := 2; good_threshold := 4;
              bad_threshold := 2; harshness := 1 |} [] two_recs).
  - apply gensim_search_contract.
  - apply (bool_decide_unpack _). vm_compute. exact I.
  - simpl. lia.
  - reflexivity.
Defined.

(** C5, witness: around [[1; 0]] the search finds [A], [B] and [D]; both
    [_similar_movies] and [get_similar_movies] return [B] and [D]. *)
Lemma similar_movies_at_most_n_witness :
  (_similar_movies space (gensim_similar_by_vector space) ∅ 1
     (Array1 [1; 0]%float) 2 []
   = Ok [("B", 0.9%float); ("D", 0%float)]
   ∧ Z.of_nat (length [("B", 0.9%float); ("D", 0%float)]) ≤ 2
   ∧ NoDup [("B", 0.9%float); ("D", 0%float)].*1)
  ∧ (similar_movies_df space (gensim_similar_by_vector space)
       {| sim_movie_id := "A"; num_movies := 2 |}
     = Ok [("B", 0.9%float); ("D", 0%float)]
     ∧ Z.of_nat (length [("B", 0.9%float); ("D", 0%float)]) ≤ 2
     ∧ NoDup [("B", 0.9%float); ("D", 0%float)].*1
     ∧ ∃ data,
         get_similar_movies space (gensim_similar_by_vector space)
           space_book {| sim_movie_id := "A"; num_movies := 2 |}
         = Ok (Data data)
         ∧ movie_id <$> data = ["B"; "D"]).
Proof.
  destruct (similar_movies_at_most_n space (gensim_similar_by_vector space)
              space_book (gensim_search_contract space)) as [Hvec Hmovie].
  assert (gensim_similar_by_vector space (Array1 [1; 0]%float) (2 + 1)
          = Ok [("A", 1%float); ("B", 0.9%float); ("D", 0%float)]) as Hs
    by (vm_compute; reflexivity).
  split.
  - pose proof (Hvec ∅ 1 (Array1 [1; 0]%float) 2 [] (Array1 [1; 0]%float)
                  eq_refl) as Hout.
    rewrite Hs in Hout. destruct Hout as (Hrecs & Hlen & Hnd).
    split; [exact Hrecs|]. split; [apply Hlen; lia|exact Hnd].
  - pose proof (Hmovie {| sim_movie_id := "A"; num_movies := 2 |}
                  [1; 0]%float eq_refl) as Hout.
    cbn [num_movies sim_movie_id] in Hout. rewrite Hs in Hout.
    destruct Hout as (Hrecs & Hlen & Hnd & Hdata).
    split; [exact Hrecs|]. split; [apply Hlen; lia|]. split; [exact Hnd|].
    apply Hdata.
    + apply (bool_decide_unpack _). vm_compute. exact I.
    + apply (bool_decide_unpack _). vm_compute. exact I.
Defined.

(** C5, counterexample: for [n = -1] the search returns the empty list,
    which has more than [n] entries; and with a book that has the row of
    [B] twice, [get_similar_movies] asked for one movie returns two
    entries, both for [B]. *)
Lemma similar_movies_at_most_n_counterexample :
  (_similar_movies space (gensim_similar_by_vector space) ∅ 1
     (Array1 [1; 0]%float) (-1) [] = Ok []
   ∧ ¬ Z.of_nat (length (@nil (string * float))) ≤ -1)
  ∧ ∃ data,
      get_similar_movies space (gensim_similar_by_vector space) doubled_book
        {| sim_movie_id := "A"; num_movies := 1 |}
      = Ok (Data data)
      ∧ movie_id <$> data = ["B"; "B"]
      ∧ ¬ Z.of_nat (length data) ≤ 1
      ∧ ¬ NoDup (movie_id <$> data).
Proof.
  split.
  - split; [reflexivity|]. simpl. lia.
  - eexists. split; [vm_compute; reflexivity|].
    split; [reflexivity|]. split; [simpl; lia|].
    simpl. intros Hnd. apply NoDup_cons in Hnd as [Hin _].
    apply Hin. by left.
Qed.
